(** * Per-user document index and retrieval pipeline (backend/rag_pipeline.py)

    A shallow embedding of the index life cycle of the RAG backend:
    chunking, building / appending / persisting / loading the vector index,
    the metadata ledger, delete-and-rebuild, repair on read and the
    retrieval policy that selects the prompt.

    Every function of rag_pipeline.py works on the paths below
    [data/<user_id>/]; the state of the model is that one directory.
    The collaborators of the pipeline (text extraction, the text splitter,
    the embedding model, the clock and the nearest-neighbour search of the
    index library) are parameters of the development.  Writes to the disk
    are taken to succeed; the failures that are modelled are the ones of
    extraction, of the embedding provider and of unreadable artifacts.

    The directory is modelled as the pipeline itself fills it: source files
    under plain names beside the three artifacts, and a metadata.json that
    is missing, does not parse, or holds a list of entries.  An upload or a
    delete under the name of an artifact, or under a path with a directory
    part, acts on the artifact or outside the directory and is not covered;
    nor is a metadata.json that parses to something other than a list of
    entries.  Where a statement depends on this, it says so by
    [source_name] and by the runs of [source_op]s that it ranges over. *)

From Stdlib Require Import ZArith QArith Ascii String List Lia.
From stdpp Require Import base option list strings gmap pretty.

Local Open Scope string_scope.
Local Open Scope list_scope.

(** ** Text helpers (Python [str] methods used by the pipeline) *)

Module Py.

Definition nl : string := String (ascii_of_nat 10) "".

(** [c.lower()] on one character, for code points below 256: the ASCII
    capitals and the Latin-1 capitals (without the multiplication sign). *)
Definition lower_ascii (c : ascii) : ascii :=
  let n := nat_of_ascii c in
  if ((65 <=? n)%nat && (n <=? 90)%nat)
     || ((192 <=? n)%nat && (n <=? 222)%nat && negb (n =? 215)%nat)
  then ascii_of_nat (n + 32) else c.

Fixpoint lower (s : string) : string :=
  match s with
  | "" => ""
  | String c s' => String (lower_ascii c) (lower s')
  end.

(** [s.split(sep)] for a one-character separator. *)
Fixpoint split (sep : ascii) (s : string) : list string :=
  match s with
  | "" => [""]
  | String c s' =>
      if Ascii.eqb c sep then "" :: split sep s'
      else match split sep s' with
           | [] => [String c ""]
           | w :: ws => String c w :: ws
           end
  end.

(** [l[-1]] on a list that [split] produced (never empty). *)
Definition last_item (l : list string) : string := List.last l "".

(** [os.path.basename] with the POSIX separator. *)
Definition basename (p : string) : string := last_item (split "/" p).

(** [c.isspace()] for code points below 256. *)
Definition isspace (c : ascii) : bool :=
  let n := nat_of_ascii c in
  ((9 <=? n)%nat && (n <=? 13)%nat) || ((28 <=? n)%nat && (n <=? 32)%nat)
  || (n =? 133)%nat || (n =? 160)%nat.

Fixpoint lstrip (s : string) : string :=
  match s with
  | "" => ""
  | String c s' => if isspace c then lstrip s' else s
  end.

Definition rstrip (s : string) : string := String.rev (lstrip (String.rev s)).

Definition strip (s : string) : string := rstrip (lstrip s).

(** [sep.join(l)]. *)
Fixpoint join (sep : string) (l : list string) : string :=
  match l with
  | [] => ""
  | [x] => x
  | x :: rest => x ++ sep ++ join sep rest
  end.

(** [l[i]] for a Python integer [i]: negative subscripts count from the
    end, anything out of range raises [IndexError] ([None]). *)
Definition getitem {A : Type} (l : list A) (i : Z) : option A :=
  let n := Z.of_nat (length l) in
  if (0 <=? i)%Z then l !! Z.to_nat i
  else if (0 <=? n + i)%Z then l !! Z.to_nat (n + i)
  else None.

End Py.

(** Whether the character [c] occurs in [s]. *)
Fixpoint occurs (c : ascii) (s : string) : bool :=
  match s with
  | "" => false
  | String c' s' => Ascii.eqb c' c || occurs c s'
  end.

(** ** A state monad with exceptions

    [M S A] is a computation over a state [S] that returns an [A] or raises;
    what was written before the exception stays written. *)

Definition M (S A : Type) : Type := S -> S * option A.

Definition raise {S A : Type} : M S A := fun w => (w, None).

Global Instance M_ret {S : Type} : MRet (M S) :=
  fun A a w => (w, Some a).

Global Instance M_bind {S : Type} : MBind (M S) :=
  fun A B k m w =>
    match m w with
    | (w', Some a) => k a w'
    | (w', None) => (w', None)
    end.

(** [try: m  except Exception: h]. *)
Definition try_except {S A : Type} (m : M S A) (h : M S A) : M S A :=
  fun w => match m w with
           | (w', None) => h w'
           | r => r
           end.

(** ** Data model *)

(** A persisted artifact: missing, present but unreadable, or readable. *)
Inductive stored (A : Type) : Type :=
| Absent : stored A
| Garbled : stored A
| Stored : A -> stored A.

Arguments Absent {A}.
Arguments Garbled {A}.
Arguments Stored {A} _.

Definition exists_on_disk {A : Type} (s : stored A) : bool :=
  match s with Absent => false | _ => true end.

(** One record of metadata.json. *)
Record Entry : Type := mkEntry {
  file : string;
  chunks : nat;
  uploaded_at : string
}.

(** The threshold 1.2.  Distances are single-precision numbers, rationals
    here; the code compares them with the double nearest to 1.2, which a
    single-precision number exceeds exactly when it exceeds 12/10.  (A
    NumPy that compares in single precision rounds the threshold up, and
    then classifies the one distance equal to that rounded value, and no
    other, differently.) *)
Definition RELEVANCE_THRESHOLD : Q := 12 # 10.

Definition SUPPORTED : list string :=
  ["pdf"; "txt"; "csv"; "tsv"; "xlsx"; "docx"; "pptx"].

(** ** The pipeline *)

(** The collaborators of the pipeline, external to rag_pipeline.py. *)
Class Collaborators : Type := {
  (** An embedding vector (a row of the index). *)
  Vec : Type;
  (** [embed_model.encode]: the answer of the embedding provider when it is
      reached as the [n]-th external call; [None] when it raises. *)
  embed_model_encode : nat -> list string -> option (list Vec);
  (** Text extraction for a supported extension (fitz, pandas, docx, pptx,
      plain read), from the bytes of the file; [None] when it raises. *)
  extract_text : string -> string -> option string;
  (** [RecursiveCharacterTextSplitter(800, 100, ...).split_text]. *)
  split_text : string -> list string;
  (** [datetime.now().strftime(...)] read as the [n]-th external call. *)
  now : nat -> string;
  (** [index.search(queries, k)]: per query row, the distances [D] and the
      labels [I] of the index library. *)
  index_search : list Vec -> list Vec -> nat -> list (list Q) * list (list Z)
}.

Section Pipeline.

Context {collab : Collaborators}.

(** The directory [data/<user_id>/]: the uploaded source files by path
    relative to the directory, metadata.json, faiss.index (its rows) and
    chunks.pkl. *)
Record UserDir : Type := mkUserDir {
  files : gmap string string;
  metadata_json : stored (list Entry);
  faiss_index : stored (list Vec);
  chunks_pkl : stored (list string)
}.

(** The directory together with the count of external calls made so far
    and, as a ghost counter, how many times the embedding provider has
    raised. *)
Record World : Type := mkWorld {
  disk : UserDir;
  tick : nat;
  raised : nat
}.

Definition empty_dir : UserDir := mkUserDir ∅ Absent Absent Absent.

Definition set_files (f : gmap string string) (d : UserDir) : UserDir :=
  mkUserDir f (metadata_json d) (faiss_index d) (chunks_pkl d).

Definition set_metadata (m : stored (list Entry)) (d : UserDir) : UserDir :=
  mkUserDir (files d) m (faiss_index d) (chunks_pkl d).

Definition set_index (i : stored (list Vec)) (d : UserDir) : UserDir :=
  mkUserDir (files d) (metadata_json d) i (chunks_pkl d).

Definition set_chunks (c : stored (list string)) (d : UserDir) : UserDir :=
  mkUserDir (files d) (metadata_json d) (faiss_index d) c.

Definition read_disk : M World UserDir := fun w => (w, Some (disk w)).

Definition write_disk (f : UserDir -> UserDir) : M World unit :=
  fun w => (mkWorld (f (disk w)) (tick w) (raised w), Some tt).

Definition encode (texts : list string) : M World (list Vec) :=
  fun w =>
    match embed_model_encode (tick w) texts with
    | Some vectors => (mkWorld (disk w) (S (tick w)) (raised w), Some vectors)
    | None => (mkWorld (disk w) (S (tick w)) (S (raised w)), None)
    end.

Definition datetime_now : M World string :=
  fun w => (mkWorld (disk w) (S (tick w)) (raised w), Some (now (tick w))).

Definition of_option {A : Type} (o : option A) : M World A :=
  match o with Some a => mret a | None => raise end.

(** [x or []]. *)
Definition or_empty {A : Type} (o : option (list A)) : list A :=
  match o with Some l => l | None => [] end.

(** [os.path.exists(os.path.join(user_dir, p))]: a source file, or the
    directory itself when [p] is empty.  The artifacts are not looked up
    here: for [p] the name of an artifact the code finds the artifact. *)
Definition path_exists (d : UserDir) (p : string) : bool :=
  bool_decide (p = "") || bool_decide (is_Some (files d !! p)).

(** [os.remove]: raises on a path that is not a file.  As in
    [path_exists], only source files are removed here. *)
Definition os_remove (p : string) : M World unit :=
  d ← read_disk;
  if bool_decide (is_Some (files d !! p))
  then write_disk (set_files (delete p (files d)))
  else raise.

(** [json.load] of metadata.json: the list of entries that the file holds;
    it raises when the file is missing or does not parse.  (A file that
    parses to something else is outside the model.) *)
Definition json_load : M World (list Entry) :=
  d ← read_disk;
  match metadata_json d with
  | Stored l => mret l
  | _ => raise
  end.

Definition json_dump (metadata : list Entry) : M World unit :=
  write_disk (set_metadata (Stored metadata)).

(** [update_metadata]: an unreadable ledger is restarted from []. *)
Definition update_metadata (file_path : string) (num_chunks : nat)
  : M World unit :=
  d ← read_disk;
  metadata ← (if exists_on_disk (metadata_json d)
              then try_except json_load (mret [])
              else mret []);
  stamp ← datetime_now;
  json_dump
    (metadata ++ [mkEntry (Py.basename file_path) num_chunks stamp]).

(** [chunk_file]: every failure (unsupported type, unreadable file, failed
    extraction, blank text) gives the empty list; it writes nothing. *)
Definition chunk_file (d : UserDir) (file_path : string) : list string :=
  let filename := Py.basename file_path in
  let ext := Py.last_item (Py.split "." (Py.lower filename)) in
  if bool_decide (ext ∈ SUPPORTED) then
    match files d !! file_path with
    | None => []
    | Some data =>
        match extract_text ext data with
        | None => []
        | Some text =>
            if bool_decide (Py.strip text = "") then []
            else split_text text
        end
    end
  else [].

(** [IndexFlatL2.add]: rows are appended in call order. *)
Definition index_add (index rows : list Vec) : list Vec := index ++ rows.

(** [build_faiss_index], its first component (the index or None). *)
Definition build_faiss_index (chunks : list string)
  : M World (option (list Vec)) :=
  try_except
    (match chunks with
     | [] => mret None
     | _ =>
         embeddings ← encode chunks;
         mret (Some (index_add [] embeddings))
     end)
    (mret None).

Definition save_user_index (index : list Vec) (chunks : list string)
  : M World unit :=
  write_disk (set_chunks (Stored chunks));;
  write_disk (set_index (Stored index)).

Definition clear_user_index : M World unit :=
  d ← read_disk;
  (if exists_on_disk (chunks_pkl d)
   then write_disk (set_chunks Absent) else mret tt);;
  (if exists_on_disk (faiss_index d)
   then write_disk (set_index Absent) else mret tt).

Definition load_user_index
  : M World (option (list Vec) * option (list string)) :=
  d ← read_disk;
  if negb (exists_on_disk (faiss_index d))
     || negb (exists_on_disk (chunks_pkl d))
  then mret (None, None)
  else
    match faiss_index d, chunks_pkl d with
    | Stored index, Stored chunks => mret (Some index, Some chunks)
    | _, _ => mret (None, None)
    end.

(** The loop of [rebuild_index_from_files] over the ledger entries. *)
Fixpoint rebuild_scan (d : UserDir) (metadata : list Entry)
    (all_chunks : list string) (new_metadata : list Entry)
  : M World (list string * list Entry) :=
  match metadata with
  | [] => mret (all_chunks, new_metadata)
  | entry :: rest =>
      let file_path := file entry in
      if negb (path_exists d file_path)
      then rebuild_scan d rest all_chunks new_metadata
      else
        match chunk_file d file_path with
        | [] => rebuild_scan d rest all_chunks new_metadata
        | chunks =>
            stamp ← (if bool_decide (uploaded_at entry = "")
                     then datetime_now
                     else mret (uploaded_at entry));
            rebuild_scan d rest (all_chunks ++ chunks)
              (new_metadata
                 ++ [mkEntry (Py.basename file_path) (length chunks) stamp])
        end
  end.

Definition rebuild_index_from_files : M World bool :=
  d ← read_disk;
  if negb (exists_on_disk (metadata_json d)) then
    clear_user_index;; mret true
  else
    metadata ← try_except json_load (mret []);
    '(all_chunks, new_metadata) ← rebuild_scan d metadata [] [];
    json_dump new_metadata;;
    match all_chunks with
    | [] => clear_user_index;; mret true
    | _ =>
        index ← build_faiss_index all_chunks;
        match index with
        | None => mret false
        | Some index => save_user_index index all_chunks;; mret true
        end
    end.

(** The first two blocks of [delete_user_document]: "Remove file if
    exists" and "Update metadata to remove this entry". *)
Definition delete_file_and_entry (filename : string) : M World unit :=
  d ← read_disk;
  try_except
    (if path_exists d filename then os_remove filename else mret tt)
    (mret tt);;
  d ← read_disk;
  if exists_on_disk (metadata_json d) then
    try_except
      (metadata ← json_load;
       json_dump (filter (fun m => file m ≠ filename) metadata))
      (mret tt)
  else mret tt.

Definition delete_user_document (filename : string) : M World bool :=
  delete_file_and_entry filename;;
  rebuild_index_from_files.

(** The tail of [add_new_document] ("Create embeddings for new chunks and
    append"), entered with the index that was loaded or just built. *)
Definition append_new_chunks (file_path : string) (chunks : list string)
    (index : option (list Vec)) (existing_chunks : option (list string))
  : M World bool :=
  match index with
  | Some index =>
      new_embeddings ← encode chunks;
      let index := index_add index new_embeddings in
      let all_chunks := or_empty existing_chunks ++ chunks in
      save_user_index index all_chunks;;
      update_metadata file_path (length chunks);;
      mret true
  | None => mret false
  end.

Definition add_new_document (file_path : string) : M World bool :=
  try_except
    (d ← read_disk;
     match chunk_file d file_path with
     | [] => mret false
     | chunks =>
         if exists_on_disk (faiss_index d) then
           '(index, existing_chunks) ← load_user_index;
           match index with
           | None =>
               let all_chunks := or_empty existing_chunks ++ chunks in
               index ← build_faiss_index all_chunks;
               match index with
               | Some index =>
                   save_user_index index all_chunks;;
                   update_metadata file_path (length chunks);;
                   mret true
               | None => mret false
               end
           | Some _ => append_new_chunks file_path chunks index existing_chunks
           end
         else
           index ← build_faiss_index chunks;
           append_new_chunks file_path chunks index (Some [])
     end)
    (mret false).

(** [upload_file] of main.py: the file is saved in the user's directory,
    then indexed.  Saved as a source file: an upload under the name of an
    artifact, which in the code overwrites the artifact, is outside the
    model (see [source_name]). *)
Definition upload_file (filename data : string) : M World bool :=
  d ← read_disk;
  write_disk (set_files (<[filename := data]> (files d)));;
  add_new_document filename.

(** The three prompt templates of [get_response_stream]. *)
Definition prompt_no_documents (query : string) : string :=
  "You have no uploaded documents. Answer this generally:"
    ++ Py.nl ++ Py.nl ++ "Q: " ++ query ++ Py.nl ++ "A:".

Definition prompt_no_relevant (query : string) : string :=
  "No relevant info found in your uploaded docs. Answer generally:"
    ++ Py.nl ++ Py.nl ++ "Q: " ++ query ++ Py.nl ++ "A:".

Definition prompt_grounded (context query : string) : string :=
  "Use the context below to answer:" ++ Py.nl ++ Py.nl
    ++ "Context:" ++ Py.nl ++ context ++ Py.nl ++ Py.nl
    ++ "Q: " ++ query ++ Py.nl ++ "A:".

(** "Auto-repair if vector/chunk mismatch": returns the index that the
    rest of the query uses. *)
Definition auto_repair (index : option (list Vec))
    (chunks : option (list string)) : M World (option (list Vec)) :=
  match index with
  | Some rows =>
      let total_vectors := length rows in
      let chunk_count := length (or_empty chunks) in
      if bool_decide (total_vectors ≠ chunk_count) then
        match or_empty chunks with
        | [] => mret index
        | cs =>
            rebuilt ← build_faiss_index cs;
            match rebuilt with
            | Some rows' => save_user_index rows' cs;; mret (Some rows')
            | None => mret None
            end
        end
      else mret index
  | None => mret None
  end.

(** The decision after the search, on the distances [D] and the labels
    [Idx] ([I] in the source) that the search returned; [None] when a
    subscript raises. *)
Definition select_prompt (chunks : list string) (D : list (list Q))
    (Idx : list (list Z)) (query : string) : option string :=
  I0 ← Idx !! 0%nat;
  let valid_indices :=
    filter (fun i => (i < Z.of_nat (length chunks))%Z) I0 in
  match valid_indices with
  | [] => Some (prompt_no_relevant query)
  | _ =>
      D0 ← D !! 0%nat;
      nearest ← D0 !! 0%nat;
      if negb (Qle_bool nearest RELEVANCE_THRESHOLD)
      then Some (prompt_no_relevant query)
      else
        texts ← mapM (Py.getitem chunks) valid_indices;
        Some (prompt_grounded (Py.join (Py.nl ++ Py.nl) texts) query)
  end.

(** "Construct query prompt". *)
Definition construct_prompt (index : option (list Vec))
    (chunks : option (list string)) (query : string) : M World string :=
  match index, or_empty chunks with
  | Some rows, (_ :: _) as cs =>
      query_vec ← encode [query];
      let '(D, Idx) := index_search rows query_vec 3 in
      of_option (select_prompt cs D Idx query)
  | _, _ => mret (prompt_no_documents query)
  end.

(** [get_response_stream] up to the call of the generation model: the
    prompt that is streamed to it. *)
Definition get_response_stream (query : string) : M World string :=
  '(index, chunks) ← load_user_index;
  index ← auto_repair index chunks;
  construct_prompt index chunks query.

(** An operation of the driving interface, and a run of several. *)
Inductive Op : Type :=
| Ingest (filename data : string)
| Remove (filename : string).

Definition run_op (o : Op) : M World bool :=
  match o with
  | Ingest filename data => upload_file filename data
  | Remove filename => delete_user_document filename
  end.

(** Runs the operations in order, whatever each returns. *)
Fixpoint run_ops (ops : list Op) (w : World) : World :=
  match ops with
  | [] => w
  | o :: rest => run_ops rest (fst (run_op o w))
  end.

Definition empty_world : World := mkWorld empty_dir 0 0.

(** [add_new_document] on each path of [paths] in turn. *)
Definition add_all (paths : list string) (w : World) : World :=
  foldl (fun w file_path => fst (add_new_document file_path w)) w paths.

(** The chunk texts that the files named by a ledger give, in ledger
    order. *)
Definition ledger_chunks (d : UserDir) (metadata : list Entry)
  : list string :=
  concat (map (fun entry => chunk_file d (file entry)) metadata).

(** The ledger as [rebuild_index_from_files] reads it. *)
Definition ledger (d : UserDir) : list Entry :=
  match metadata_json d with Stored l => l | _ => [] end.

(** Row count of the persisted index and length of the persisted chunk
    store, when both are readable. *)
Definition aligned (d : UserDir) : bool :=
  match faiss_index d, chunks_pkl d with
  | Stored index, Stored chunks => (length index =? length chunks)%nat
  | Absent, Absent => true
  | _, _ => false
  end.

(** *** Closed forms used by the proofs *)

(** The world after one call of the provider. *)
Definition after_encode (ok : bool) (w : World) : World :=
  mkWorld (disk w) (S (tick w)) (if ok then raised w else S (raised w)).

Definition with_disk (f : UserDir -> UserDir) (w : World) : World :=
  mkWorld (f (disk w)) (tick w) (raised w).

Definition cleared (d : UserDir) : UserDir :=
  set_index Absent (set_chunks Absent d).

Definition saved (index : list Vec) (chunks : list string) (d : UserDir)
  : UserDir :=
  set_index (Stored index) (set_chunks (Stored chunks) d).

(** The world after [update_metadata]. *)
Definition recorded (file_path : string) (n : nat) (w : World) : World :=
  mkWorld
    (set_metadata
       (Stored (ledger (disk w)
                  ++ [mkEntry (Py.basename file_path) n (now (tick w))]))
       (disk w))
    (S (tick w)) (raised w).

(** The directory after [delete_file_and_entry]. *)
Definition without (filename : string) (d : UserDir) : UserDir :=
  let d1 := if bool_decide (is_Some (files d !! filename))
            then set_files (delete filename (files d)) d else d in
  match metadata_json d1 with
  | Stored l =>
      set_metadata (Stored (filter (fun m => file m ≠ filename) l)) d1
  | _ => d1
  end.

(** [add_new_document] once the chunks [cs] of the file are known to be
    non-empty: the three ways in (no index file, index and chunk store
    loaded, index file present but not loadable). *)
Definition add_chunks (file_path : string) (cs : list string) (w : World)
  : World * option bool :=
  let finish rows all_chunks w' :=
    (recorded file_path (length cs) (with_disk (saved rows all_chunks) w'),
     Some true) in
  match faiss_index (disk w), chunks_pkl (disk w) with
  | Absent, _ =>
      match embed_model_encode (tick w) cs with
      | None => (after_encode false w, Some false)
      | Some built =>
          let w1 := after_encode true w in
          match embed_model_encode (tick w1) cs with
          | None => (after_encode false w1, Some false)
          | Some new_embeddings =>
              finish (built ++ new_embeddings) cs (after_encode true w1)
          end
      end
  | Stored rows, Stored existing_chunks =>
      match embed_model_encode (tick w) cs with
      | None => (after_encode false w, Some false)
      | Some new_embeddings =>
          finish (rows ++ new_embeddings) (existing_chunks ++ cs)
            (after_encode true w)
      end
  | _, _ =>
      match embed_model_encode (tick w) cs with
      | None => (after_encode false w, Some false)
      | Some built => finish built cs (after_encode true w)
      end
  end.

(** The text that a label kept by the policy stands for. *)
Definition chunk_text (chunks : list string) (i : Z) : string :=
  default "" (Py.getitem chunks i).

(** The retrieval policy in the words of the specification, for a chunk
    list of length n: of the row positions that the search returned, those
    at or beyond n are discarded; when none survives, or the nearest
    distance exceeds the threshold, the prompt is the ungrounded one;
    otherwise the context joins the chunks at the surviving row positions,
    nearest first. *)
Definition spec_select_prompt (chunks : list string) (nearest : Q)
    (positions : list Z) (query : string) : string :=
  let surviving :=
    filter (fun i => (0 <= i < Z.of_nat (length chunks))%Z) positions in
  match surviving with
  | [] => prompt_no_relevant query
  | _ =>
      if negb (Qle_bool nearest RELEVANCE_THRESHOLD)
      then prompt_no_relevant query
      else
        prompt_grounded
          (Py.join (Py.nl ++ Py.nl)
             (map (fun i => default "" (chunks !! Z.to_nat i)) surviving))
          query
  end.

(** The chunk texts of the files at [paths], in that order. *)
Definition paths_chunks (d : UserDir) (paths : list string) : list string :=
  concat (map (chunk_file d) paths).

(** What adding [paths] one by one to a directory without artifacts, whose
    source files are the ones of [d0], leaves behind. *)
Definition added (d0 : UserDir) (paths : list string) (w : World) : Prop :=
  files (disk w) = files d0
  ∧ match paths_chunks d0 paths with
    | [] =>
        faiss_index (disk w) = Absent
        ∧ chunks_pkl (disk w) = Absent
        ∧ metadata_json (disk w) = Absent
    | cs =>
        (∃ rows, faiss_index (disk w) = Stored rows)
        ∧ chunks_pkl (disk w) = Stored cs
        ∧ ∃ l, metadata_json (disk w) = Stored l
            ∧ map file l
              = map Py.basename
                  (filter (fun p => chunk_file d0 p ≠ []) paths)
    end.

(** A ledger with entries has a loadable index and chunk store beside it. *)
Definition ledger_backed (d : UserDir) : Prop :=
  ledger d ≠ [] ->
  ∃ rows cs, faiss_index d = Stored rows ∧ chunks_pkl d = Stored cs.

(** The ledger that the loop of [rebuild_index_from_files] computes, with
    the count of external calls after it. *)
Fixpoint scan_ledger (d : UserDir) (metadata : list Entry) (t : nat)
  : list Entry * nat :=
  match metadata with
  | [] => ([], t)
  | entry :: rest =>
      match chunk_file d (file entry) with
      | [] => scan_ledger d rest t
      | chunks =>
          let '(stamp, t1) :=
            if bool_decide (uploaded_at entry = "")
            then (now t, S t) else (uploaded_at entry, t) in
          let '(entries, t2) := scan_ledger d rest t1 in
          (mkEntry (Py.basename (file entry)) (length chunks) stamp
             :: entries, t2)
      end
  end.

(** *** The callers in main.py *)

(** What [list_user_docs] answers: the "No documents uploaded yet." message
    or the parsed content of metadata.json. *)
Inductive Listing : Type :=
| NoDocumentsYet
| Documents (entries : list Entry).

(** [list_user_docs]: the parse error of an unreadable ledger is not
    caught. *)
Definition list_user_docs : M World Listing :=
  d ← read_disk;
  if negb (exists_on_disk (metadata_json d)) then mret NoDocumentsYet
  else entries ← json_load; mret (Documents entries).

(** What [ask_question_json] answers: the full answer, or the
    "Error while processing your question" answer. *)
Inductive Answer : Type :=
| FullAnswer (text : string)
| ErrorAnswer.

(** The loop at the end of [get_response_stream]: of the fragments that the
    generation model streams, those that carry a message content are
    yielded ([None] stands for a fragment without one). *)
Definition relay (fragments : list (option string)) : list string :=
  omap id fragments.

(** [get_response_stream] with its generator run to the end, as the loop of
    [ask_question_json] runs it.  [ollama_chat prompt] gives the fragments
    that the generation model streams and whether the stream ends normally
    ([false]: it raises after them). *)
Definition consume_response_stream
    (ollama_chat : string -> list (option string) * bool) (query : string)
  : M World (list string) :=
  prompt ← get_response_stream query;
  let '(fragments, completes) := ollama_chat prompt in
  if completes then mret (relay fragments) else raise.

(** [ask_question_json]: the fragments are concatenated; any exception
    gives the error answer. *)
Definition ask_question_json
    (ollama_chat : string -> list (option string) * bool) (query : string)
  : M World Answer :=
  try_except
    (pieces ← consume_response_stream ollama_chat query;
     mret (FullAnswer (foldl String.append "" pieces)))
    (mret ErrorAnswer).

(** The extension that [chunk_file] dispatches on. *)
Definition extension (file_path : string) : string :=
  Py.last_item (Py.split "." (Py.lower (Py.basename file_path))).

(** *** Invariants of the directory *)

(** The names under which a source file can lie in the directory beside
    the artifacts: plain names (no directory part, not the directory itself
    or its parent) other than the names of the three artifacts.  For these
    names the upload and the delete of main.py touch a source file and
    nothing else. *)
Definition source_name (filename : string) : Prop :=
  occurs "/" filename = false
  ∧ filename ∉ [""; "."; ".."; "chunks.pkl"; "faiss.index"; "metadata.json"].

Definition source_op (o : Op) : Prop :=
  match o with
  | Ingest filename _ => source_name filename
  | Remove filename => source_name filename
  end.

(** The source files after an operation of the driving interface. *)
Definition files_after (fs : gmap string string) (o : Op)
  : gmap string string :=
  match o with
  | Ingest filename data => <[filename := data]> fs
  | Remove filename => delete filename fs
  end.

(** The chunk store as a list (nothing when it is missing or unreadable). *)
Definition stored_chunks (d : UserDir) : list string :=
  match chunks_pkl d with Stored cs => cs | _ => [] end.

(** The chunk counts of the ledger add up to the length of the chunk store,
    and index and chunk store are both loadable or both missing with an
    empty ledger. *)
Definition consistent (d : UserDir) : Prop :=
  sum_list (map chunks (ledger d)) = length (stored_chunks d)
  ∧ ((∃ rows cs, faiss_index d = Stored rows ∧ chunks_pkl d = Stored cs)
     ∨ (faiss_index d = Absent ∧ chunks_pkl d = Absent ∧ ledger d = [])).

(** Every ledger entry names a file by its base name. *)
Definition ledger_flat (d : UserDir) : Prop :=
  Forall (fun m => Py.basename (file m) = file m) (ledger d).

End Pipeline.

(** ** Paths of a user (get_user_dirs) *)

Definition BASE_DIR : string := "data".

Definition METADATA_FILE : string := "metadata.json".

(** [s.endswith(c)] for one character. *)
Fixpoint ends_with (c : ascii) (s : string) : bool :=
  match s with
  | "" => false
  | String x "" => Ascii.eqb x c
  | String _ s' => ends_with c s'
  end.

(** [os.path.join(a, b)] on POSIX paths. *)
Definition path_join (a b : string) : string :=
  match b with
  | String "/" _ => b
  | _ =>
      match a with
      | "" => b
      | _ => if ends_with "/" a then a ++ b else a ++ "/" ++ b
      end
  end.

(** [os.path.join(BASE_DIR, str(user_id))]. *)
Definition user_dir (user_id : Z) : string :=
  path_join BASE_DIR (pretty user_id).

(** [get_user_dirs], the three paths it returns (it also creates the
    directory). *)
Definition get_user_dirs (user_id : Z) : string * string * string :=
  (user_dir user_id,
   path_join (user_dir user_id) "chunks.pkl",
   path_join (user_dir user_id) "faiss.index").

(** The path of the ledger, and of an uploaded or deleted source file. *)
Definition metadata_path (user_id : Z) : string :=
  path_join (user_dir user_id) METADATA_FILE.

Definition target_path (user_id : Z) (filename : string) : string :=
  path_join (user_dir user_id) filename.

(** ** Accounts (register and login of main.py) *)

Module Auth.

(** A row of the user table, with the fields that main.py reads and
    writes. *)
Record User : Type := mkUser {
  id : Z;
  username : string;
  hashed_password : string
}.

(** The table in insertion order, and the count of hashes made so far (the
    salt of the next one). *)
Record DB : Type := mkDB {
  users : list User;
  hashes : nat
}.

Inductive Response : Type :=
| UserRegistered (user_id : Z)
| LoginSuccessful (user_id : Z)
| HTTPError (status : nat).

(** [db.query(User).filter(User.username == username).first()]. *)
Definition first_by_username (name : string) (table : list User)
  : option User :=
  List.find (fun u => bool_decide (username u = name)) table.

Section Endpoints.

(** [pwd_context.hash] (salted: by the count of hashes made) and
    [pwd_context.verify]. *)
Variable pwd_hash : nat -> string -> string.
Variable pwd_verify : string -> string -> bool.

(** The id that the database gives the row it inserts. *)
Variable assigned_id : list User -> Z.

Definition register (name password : string) (db : DB) : DB * Response :=
  match first_by_username name (users db) with
  | Some _ => (db, HTTPError 400)
  | None =>
      let hashed_pw := pwd_hash (hashes db) password in
      let user := mkUser (assigned_id (users db)) name hashed_pw in
      (mkDB (users db ++ [user]) (S (hashes db)), UserRegistered (id user))
  end.

Definition login (name password : string) (db : DB) : DB * Response :=
  match first_by_username name (users db) with
  | Some user =>
      if pwd_verify password (hashed_password user)
      then (db, LoginSuccessful (id user))
      else (db, HTTPError 401)
  | None => (db, HTTPError 401)
  end.

End Endpoints.

End Auth.

(** ** A concrete instance, for evaluating the model

    Plain-text extraction; a splitter that cuts the text at every "|"; a
    provider that returns one vector per text (the length of the text as a
    stand-in for the vector) on the calls that [answers] selects and raises
    on the others; a search that reports the labels [[0; -1; -1]] of a
    one-row index. *)

Module Example.

Definition search_one_row (rows queries : list nat) (k : nat)
  : list (list Q) * list (list Z) :=
  ([[1 # 2; 1000 # 1; 1000 # 1]], [[0; -1; -1]%Z]).

Definition provider (answers : nat -> bool) : Collaborators := {|
  Vec := nat;
  embed_model_encode := fun n texts =>
    if answers n then Some (map String.length texts) else None;
  extract_text := fun _ data => Some data;
  split_text := Py.split "|";
  now := fun _ => "2024-01-01 00:00:00";
  index_search := search_one_row
|}.

(** A provider that always answers. *)
Definition healthy : Collaborators := provider (fun _ => true).

(** A provider that always raises. *)
Definition failing : Collaborators := provider (fun _ => false).

(** A directory with one source file, "a.txt", a ledger that also names a
    file that is gone, and an index and chunk store of one row. *)
Definition stale_dir : UserDir (collab := failing) :=
  mkUserDir (collab := failing)
    {[ "a.txt" := "alpha" ]}
    (Stored [mkEntry "gone.txt" 1 "2023-12-31 00:00:00";
             mkEntry "a.txt" 1 "2024-01-01 00:00:00"])
    (Stored [4%nat])
    (Stored ["beta"]).

Definition stale_world : World (collab := failing) :=
  mkWorld (collab := failing) stale_dir 0 0.

(** A directory that holds only a blank text file. *)
Definition blank_world : World (collab := healthy) :=
  mkWorld (collab := healthy)
    (mkUserDir (collab := healthy) {[ "blank.txt" := "   " ]}
       Absent Absent Absent) 0 0.

(** The world after the first ingest of a user. *)
Definition first_ingest : World (collab := healthy) :=
  run_ops (collab := healthy)
    [Ingest "notes.txt" "hello world"] empty_world.

(** A provider that raises from its eighth call on, and the world after
    three ingests that it still serves: "a.txt", "a.txt" again with a longer
    text, and "b.txt". *)
Definition flaky : Collaborators := provider (fun n => (n <? 7)%nat).

Definition three_ingests : World (collab := flaky) :=
  run_ops (collab := flaky)
    [Ingest "a.txt" "x"; Ingest "a.txt" "y|z"; Ingest "b.txt" "w"]
    empty_world.

(** A directory with two source files and no artifact. *)
Definition two_files : World (collab := healthy) :=
  mkWorld (collab := healthy)
    (mkUserDir (collab := healthy)
       {[ "a.txt" := "x|y"; "b.txt" := "z" ]} Absent Absent Absent) 0 0.

(** The same after both files were added. *)
Definition two_added : World (collab := healthy) :=
  add_all (collab := healthy) ["a.txt"; "b.txt"] two_files.

(** The same after both files were added and the index and the chunk store
    were lost. *)
Definition two_added_wiped : World (collab := healthy) :=
  with_disk (collab := healthy) (cleared (collab := healthy)) two_added.

(** A directory whose one source file lies in a subdirectory. *)
Definition nested_file : World (collab := healthy) :=
  mkWorld (collab := healthy)
    (mkUserDir (collab := healthy)
       {[ "sub/a.txt" := "x|y" ]} Absent Absent Absent) 0 0.

(** The same after a rebuild. *)
Definition rebuilt : World (collab := healthy) :=
  (rebuild_index_from_files (collab := healthy) two_added).1.

(** A directory whose faiss.index is unreadable beside a readable chunk
    store and ledger. *)
Definition garbled_index_world : World (collab := healthy) :=
  mkWorld (collab := healthy)
    (mkUserDir (collab := healthy)
       {[ "a.txt" := "x|y" ]}
       (Stored [mkEntry "old.txt" 1 "2023-12-31 00:00:00"])
       Garbled
       (Stored ["old"])) 0 0.

(** A directory whose metadata.json is unreadable. *)
Definition garbled_ledger_world : World (collab := healthy) :=
  mkWorld (collab := healthy)
    (mkUserDir (collab := healthy)
       {[ "a.txt" := "x|y" ]} Garbled (Stored [3%nat]) (Stored ["old"])) 0 0.

(** A password scheme and an id assignment for the account endpoints. *)
Definition toy_hash (salt : nat) (password : string) : string :=
  ("hash:" ++ password)%string.

Definition toy_verify (password hashed : string) : bool :=
  bool_decide (hashed = ("hash:" ++ password)%string).

Definition next_id (table : list Auth.User) : Z :=
  Z.of_nat (S (length table)).

Definition no_users : Auth.DB := Auth.mkDB [] 0.

End Example.

(** ** Properties *)

Section Properties.

Context {collab : Collaborators}.

Implicit Types (w : World) (d : UserDir) (cs : list string).

(** *** What each helper does to the world *)

Lemma load_user_index_spec w :
  load_user_index w =
    (w, Some match faiss_index (disk w), chunks_pkl (disk w) with
             | Stored index, Stored chunks => (Some index, Some chunks)
             | _, _ => (None, None)
             end).
Proof.
  unfold load_user_index, read_disk, mbind, M_bind, mret, M_ret.
  destruct (faiss_index (disk w)), (chunks_pkl (disk w)); reflexivity.
Qed.

Lemma encode_spec texts w :
  encode texts w =
    match embed_model_encode (tick w) texts with
    | Some vectors => (after_encode true w, Some vectors)
    | None => (after_encode false w, None)
    end.
Proof. reflexivity. Qed.

Lemma build_faiss_index_spec cs w :
  build_faiss_index cs w =
    match cs with
    | [] => (w, Some None)
    | _ =>
        match embed_model_encode (tick w) cs with
        | Some vectors => (after_encode true w, Some (Some vectors))
        | None => (after_encode false w, Some None)
        end
    end.
Proof.
  unfold build_faiss_index, try_except, mbind, M_bind, mret, M_ret.
  destruct cs as [|c cs]; [reflexivity|].
  rewrite encode_spec.
  destruct (embed_model_encode (tick w) (c :: cs)); reflexivity.
Qed.

Lemma save_user_index_spec index cs w :
  save_user_index index cs w =
    (with_disk (saved index cs) w, Some tt).
Proof. reflexivity. Qed.

Lemma clear_user_index_spec w :
  clear_user_index w = (with_disk cleared w, Some tt).
Proof.
  unfold clear_user_index, read_disk, write_disk, mbind, M_bind, mret, M_ret.
  destruct w as [[fs md ix ck] t r]; simpl.
  destruct ck, ix; reflexivity.
Qed.

Lemma update_metadata_spec file_path n w :
  update_metadata file_path n w =
    (mkWorld
       (set_metadata
          (Stored (ledger (disk w)
                     ++ [mkEntry (Py.basename file_path) n (now (tick w))]))
          (disk w))
       (S (tick w)) (raised w),
     Some tt).
Proof.
  unfold update_metadata, json_load, json_dump, datetime_now, ledger,
    try_except, read_disk, write_disk, mbind, M_bind, mret, M_ret, raise.
  destruct w as [[fs md ix ck] t r]; simpl.
  destruct md; reflexivity.
Qed.

Lemma delete_file_and_entry_spec filename w :
  delete_file_and_entry filename w = (with_disk (without filename) w, Some tt).
Proof.
  unfold delete_file_and_entry, without, path_exists, os_remove, json_load,
    json_dump, try_except, read_disk, write_disk, with_disk, mbind, M_bind,
    mret, M_ret, raise.
  destruct w as [[fs md ix ck] t r]; cbn.
  destruct (bool_decide (is_Some (fs !! filename))) eqn:E; cbn.
  - rewrite orb_true_r. cbn. rewrite E. cbn. destruct md; reflexivity.
  - destruct (bool_decide (filename = "")); cbn; rewrite ?E; cbn;
      destruct md; reflexivity.
Qed.

Lemma delete_user_document_spec filename w :
  delete_user_document filename w =
    rebuild_index_from_files (with_disk (without filename) w).
Proof.
  unfold delete_user_document, mbind, M_bind.
  rewrite delete_file_and_entry_spec. reflexivity.
Qed.

(** [add_new_document] in closed form. *)
Lemma add_new_document_spec file_path w :
  add_new_document file_path w =
    match chunk_file (disk w) file_path with
    | [] => (w, Some false)
    | cs => add_chunks file_path cs w
    end.
Proof.
  unfold add_new_document, try_except.
  unfold mbind at 1, M_bind at 1, read_disk at 1.
  destruct (chunk_file (disk w) file_path) as [|c cs] eqn:Hc;
    [reflexivity|].
  unfold add_chunks.
  destruct (faiss_index (disk w)) as [| |rows] eqn:Hix; simpl.
  - unfold mbind at 1, M_bind at 1. rewrite build_faiss_index_spec.
    destruct (embed_model_encode (tick w) (c :: cs)) as [built|]; simpl;
      [|reflexivity].
    unfold append_new_chunks, mbind at 1, M_bind at 1.
    rewrite encode_spec. simpl.
    destruct (embed_model_encode (S (tick w)) (c :: cs)); simpl;
      [|reflexivity].
    unfold mbind, M_bind. rewrite save_user_index_spec.
    rewrite update_metadata_spec. reflexivity.
  - unfold mbind at 1, M_bind at 1. rewrite load_user_index_spec, Hix.
    unfold mbind at 1, M_bind at 1. rewrite build_faiss_index_spec. simpl.
    destruct (chunks_pkl (disk w));
      (destruct (embed_model_encode (tick w) (c :: cs)); simpl;
       [|reflexivity];
       unfold mbind, M_bind; rewrite save_user_index_spec;
       rewrite update_metadata_spec; reflexivity).
  - unfold mbind at 1, M_bind at 1. rewrite load_user_index_spec, Hix.
    destruct (chunks_pkl (disk w)) as [| |old] eqn:Hck.
    + unfold mbind at 1, M_bind at 1. rewrite build_faiss_index_spec. simpl.
      destruct (embed_model_encode (tick w) (c :: cs)); simpl;
        [|reflexivity].
      unfold mbind, M_bind; rewrite save_user_index_spec;
        rewrite update_metadata_spec; reflexivity.
    + unfold mbind at 1, M_bind at 1. rewrite build_faiss_index_spec. simpl.
      destruct (embed_model_encode (tick w) (c :: cs)); simpl;
        [|reflexivity].
      unfold mbind, M_bind; rewrite save_user_index_spec;
        rewrite update_metadata_spec; reflexivity.
    + unfold append_new_chunks, mbind at 1, M_bind at 1.
      rewrite encode_spec.
      destruct (embed_model_encode (tick w) (c :: cs)); simpl;
        [|reflexivity].
      unfold mbind, M_bind; rewrite save_user_index_spec;
        rewrite update_metadata_spec; reflexivity.
Qed.

Lemma missing_path_no_chunks d p :
  path_exists d p = false -> chunk_file d p = [].
Proof.
  unfold path_exists, chunk_file. intros H.
  apply orb_false_iff in H as [_ H].
  apply bool_decide_eq_false in H.
  destruct (files d !! p) as [data|] eqn:E.
  - exfalso. apply H. eauto.
  - destruct (bool_decide _); reflexivity.
Qed.

Lemma rebuild_scan_spec d metadata acc accm w :
  rebuild_scan d metadata acc accm w =
    (mkWorld (disk w) (scan_ledger d metadata (tick w)).2 (raised w),
     Some (acc ++ ledger_chunks d metadata,
           accm ++ (scan_ledger d metadata (tick w)).1)).
Proof.
  revert acc accm w.
  induction metadata as [|entry rest IH]; intros acc accm w.
  - simpl. unfold ledger_chunks; simpl. rewrite !app_nil_r.
    destruct w; reflexivity.
  - simpl. unfold ledger_chunks; simpl. fold (ledger_chunks d rest).
    destruct (path_exists d (file entry)) eqn:Hex; simpl.
    + destruct (chunk_file d (file entry)) as [|c cs] eqn:Hc.
      * apply IH.
      * unfold mbind, M_bind.
        destruct (bool_decide (uploaded_at entry = "")); simpl.
        -- rewrite IH. simpl.
           destruct (scan_ledger d rest (S (tick w))) as [entries t2].
           simpl. rewrite <- !app_assoc. reflexivity.
        -- rewrite IH. simpl.
           destruct (scan_ledger d rest (tick w)) as [entries t2].
           simpl. rewrite <- !app_assoc. reflexivity.
    + rewrite (missing_path_no_chunks _ _ Hex). apply IH.
Qed.

(** [rebuild_index_from_files] in closed form. *)
Lemma rebuild_index_from_files_spec w :
  rebuild_index_from_files w =
    if exists_on_disk (metadata_json (disk w)) then
      let d := disk w in
      let w1 :=
        mkWorld (set_metadata (Stored (scan_ledger d (ledger d) (tick w)).1) d)
          (scan_ledger d (ledger d) (tick w)).2 (raised w) in
      match ledger_chunks d (ledger d) with
      | [] => (with_disk cleared w1, Some true)
      | cs =>
          match embed_model_encode (tick w1) cs with
          | Some vectors =>
              (with_disk (saved vectors cs) (after_encode true w1), Some true)
          | None => (after_encode false w1, Some false)
          end
      end
    else (with_disk cleared w, Some true).
Proof.
  unfold rebuild_index_from_files.
  unfold mbind at 1, M_bind at 1, read_disk at 1.
  destruct (exists_on_disk (metadata_json (disk w))) eqn:Hex; simpl.
  - unfold mbind at 1, M_bind at 1.
    assert (Hload : try_except json_load (mret [])  w
                    = (w, Some (ledger (disk w)))).
    { unfold try_except, json_load, ledger, read_disk, mbind, M_bind,
        mret, M_ret, raise.
      destruct (metadata_json (disk w)); reflexivity. }
    rewrite Hload.
    unfold mbind at 1, M_bind at 1.
    rewrite rebuild_scan_spec. simpl.
    destruct (ledger_chunks (disk w) (ledger (disk w))) as [|c cs] eqn:Hc.
    + unfold json_dump, write_disk, mbind, M_bind, mret, M_ret.
      rewrite clear_user_index_spec. reflexivity.
    + unfold json_dump, write_disk.
      unfold mbind at 1, M_bind at 1.
      unfold mbind at 1, M_bind at 1.
      rewrite build_faiss_index_spec. simpl.
      destruct (embed_model_encode _ (c :: cs)); reflexivity.
  - unfold mbind, M_bind, mret, M_ret.
    rewrite clear_user_index_spec. reflexivity.
Qed.

(** *** Soft failure of extraction *)

(** C4: when the file has an unsupported type, cannot be read, fails to
    parse or yields only blank text, [chunk_file] returns the empty list and
    [add_new_document] returns [False] in a world that is exactly the one
    it started in: no ledger entry, no change of index or chunk store. *)
Theorem C4_unreadable_file_is_skipped w file_path :
  let d := disk w in
  let ext := Py.last_item (Py.split "." (Py.lower (Py.basename file_path))) in
  (ext ∉ SUPPORTED
   ∨ files d !! file_path = None
   ∨ ∃ data, files d !! file_path = Some data
       ∧ (extract_text ext data = None
          ∨ ∃ text, extract_text ext data = Some text
              ∧ Py.strip text = "")) ->
  chunk_file d file_path = []
  ∧ add_new_document file_path w = (w, Some false).
Proof.
  intros d ext H.
  assert (Hc : chunk_file d file_path = []).
  { unfold chunk_file. fold ext.
    destruct H as [H | [H | (data & Hf & [H | (text & Ht & Hs)])]].
    - rewrite bool_decide_eq_false_2 by exact H. reflexivity.
    - rewrite H. destruct (bool_decide _); reflexivity.
    - rewrite Hf, H. destruct (bool_decide _); reflexivity.
    - rewrite Hf, Ht. rewrite (bool_decide_eq_true_2 _ Hs).
      destruct (bool_decide _); reflexivity. }
  split; [exact Hc|].
  rewrite add_new_document_spec. fold d. rewrite Hc. reflexivity.
Qed.

(** *** Queries without a loadable index *)

Lemma get_response_stream_unloadable query w :
  (∀ rows cs, ¬ (faiss_index (disk w) = Stored rows
                 ∧ chunks_pkl (disk w) = Stored cs)) ->
  get_response_stream query w = (w, Some (prompt_no_documents query)).
Proof.
  intros H. unfold get_response_stream.
  unfold mbind at 1, M_bind at 1. rewrite load_user_index_spec.
  destruct (faiss_index (disk w)) as [| |rows];
    destruct (chunks_pkl (disk w)) as [| |cs]; try reflexivity.
  exfalso. apply (H rows cs). split; reflexivity.
Qed.

(** *** Delete and rebuild *)

(** The loop that computes the new state writes nothing. *)
Lemma rebuild_scan_writes_nothing d metadata acc accm w :
  disk (rebuild_scan d metadata acc accm w).1 = disk w.
Proof. rewrite rebuild_scan_spec. reflexivity. Qed.

Lemma ledger_without filename d :
  ledger (without filename d)
  = filter (fun m => file m ≠ filename) (ledger d).
Proof.
  unfold ledger, without. destruct d as [fs md ix ck]. simpl.
  destruct (bool_decide _); simpl; destruct md; reflexivity.
Qed.

Lemma ledger_recorded file_path n w :
  ledger (disk (recorded file_path n w))
  = ledger (disk w) ++ [mkEntry (Py.basename file_path) n (now (tick w))].
Proof. reflexivity. Qed.

Lemma ledger_saved index cs d : ledger (saved index cs d) = ledger d.
Proof. reflexivity. Qed.

(** After an upload into a directory whose ledger is missing or empty, the
    ledger holds at most the entry of that upload. *)
Lemma first_upload_ledger filename data w :
  ledger (disk w) = [] ->
  Forall (fun m => file m = Py.basename filename)
    (ledger (disk (upload_file filename data w).1)).
Proof.
  intros Hmd. unfold upload_file, read_disk, write_disk, mbind, M_bind.
  simpl. rewrite add_new_document_spec. simpl.
  set (d := set_files _ _).
  assert (Hl : ledger d = []) by exact Hmd.
  clearbody d.
  destruct (chunk_file d filename) as [|c cs];
    [simpl; rewrite Hl; constructor|].
  unfold add_chunks. simpl.
  destruct (faiss_index d) as [| |rows];
    [| |destruct (chunks_pkl d) as [| |old]];
    destruct (embed_model_encode (tick w) (c :: cs)); simpl;
    try destruct (embed_model_encode (S (tick w)) (c :: cs)); simpl;
    rewrite ?ledger_recorded; simpl; rewrite ?ledger_saved, ?Hl;
    repeat constructor.
Qed.

(** C5: when the rebuild that a delete runs finds no chunk (the ledger left
    after the delete names no file that still yields text), the delete
    returns [True], faiss.index and chunks.pkl are removed (no empty index
    is stored), and a query that follows gets the no-documents prompt.  The
    delete of the one document that was uploaded into a directory whose
    ledger was missing or empty is such a delete. *)
Theorem C5_delete_to_nothing_clears filename w :
  (let w1 := (delete_file_and_entry filename w).1 in
   ledger_chunks (disk w1) (ledger (disk w1)) = [] ->
   let w' := (delete_user_document filename w).1 in
   (delete_user_document filename w).2 = Some true
   ∧ faiss_index (disk w') = Absent
   ∧ chunks_pkl (disk w') = Absent
   ∧ ∀ query,
       get_response_stream query w' = (w', Some (prompt_no_documents query)))
  ∧ (∀ data,
       Py.basename filename = filename ->
       ledger (disk w) = [] ->
       let w1 :=
         (delete_file_and_entry filename (upload_file filename data w).1).1 in
       ledger_chunks (disk w1) (ledger (disk w1)) = []).
Proof.
  split.
  2:{ intros data Hflat Hmd w1. subst w1.
      rewrite delete_file_and_entry_spec. simpl. rewrite ledger_without.
      pose proof (first_upload_ledger filename data w Hmd) as Hl.
      rewrite Hflat in Hl.
      induction Hl as [|m l Hm Hl IH]; [reflexivity|].
      rewrite filter_cons_False by (intros Hn; exact (Hn Hm)). exact IH. }
  intros w1 H w'. subst w1 w'.
  rewrite delete_file_and_entry_spec in H. simpl in H.
  rewrite delete_user_document_spec, rebuild_index_from_files_spec.
  set (w1 := with_disk (without filename) w) in *.
  assert (Hd : disk w1 = without filename (disk w)) by reflexivity.
  rewrite Hd.
  destruct (exists_on_disk (metadata_json (without filename (disk w))));
    cbv zeta; rewrite ?H; simpl.
  - do 3 (split; [reflexivity|]). intros query.
    apply get_response_stream_unloadable. simpl. intros rows cs [Hr _].
    discriminate.
  - do 3 (split; [reflexivity|]). intros query.
    apply get_response_stream_unloadable. simpl. intros rows cs [Hr _].
    discriminate.
Qed.

(** C6, in the form that holds on the code: the loop of a rebuild computes
    the new chunk list and the new ledger without writing; the ledger is
    then overwritten before the index is built, so a rebuild that returns
    [False] has left the source files, faiss.index and chunks.pkl exactly as
    they were and has replaced metadata.json by the recomputed ledger. *)
Theorem C6_failed_rebuild_keeps_index_and_chunks w w' :
  rebuild_index_from_files w = (w', Some false) ->
  disk (rebuild_scan (disk w) (ledger (disk w)) [] [] w).1 = disk w
  ∧ files (disk w') = files (disk w)
  ∧ faiss_index (disk w') = faiss_index (disk w)
  ∧ chunks_pkl (disk w') = chunks_pkl (disk w)
  ∧ metadata_json (disk w')
    = Stored (scan_ledger (disk w) (ledger (disk w)) (tick w)).1.
Proof.
  intros H. split; [apply rebuild_scan_writes_nothing|].
  rewrite rebuild_index_from_files_spec in H.
  destruct (exists_on_disk (metadata_json (disk w))); [|discriminate].
  cbv zeta in H.
  destruct (ledger_chunks (disk w) (ledger (disk w))) as [|c cs];
    [discriminate|].
  destruct (embed_model_encode _ (c :: cs)); [discriminate|].
  injection H as <-. repeat split.
Qed.

(** C7, in the form that holds on the code: an add during which the
    embedding provider raises returns [False] and leaves the whole directory
    (index, chunk store and ledger) as it was; a rebuild during which the
    provider raises returns [False] and leaves the index and the chunk store
    as they were (the ledger has by then been replaced by the recomputed
    one). *)
Theorem C7_provider_failure_aborts file_path w w' r :
  (raised w < raised w')%nat ->
  (add_new_document file_path w = (w', r) ->
     r = Some false ∧ disk w' = disk w)
  ∧ (rebuild_index_from_files w = (w', r) ->
       r = Some false
       ∧ files (disk w') = files (disk w)
       ∧ faiss_index (disk w') = faiss_index (disk w)
       ∧ chunks_pkl (disk w') = chunks_pkl (disk w)
       ∧ metadata_json (disk w')
         = Stored (scan_ledger (disk w) (ledger (disk w)) (tick w)).1).
Proof.
  intros Hr. split; intros H.
  - rewrite add_new_document_spec in H.
    destruct (chunk_file (disk w) file_path) as [|c cs].
    { injection H as <- <-. lia. }
    unfold add_chunks in H.
    destruct (faiss_index (disk w)) as [| |rows];
      [| |destruct (chunks_pkl (disk w)) as [| |old]];
      destruct (embed_model_encode (tick w) (c :: cs));
      try (injection H as <- <-; simpl in Hr; first [lia | split; reflexivity]).
    simpl in H.
    destruct (embed_model_encode (S (tick w)) (c :: cs));
      injection H as <- <-; simpl in Hr; first [lia | split; reflexivity].
  - rewrite rebuild_index_from_files_spec in H.
    destruct (exists_on_disk (metadata_json (disk w))).
    2:{ injection H as <- <-. simpl in Hr. lia. }
    cbv zeta in H.
    destruct (ledger_chunks (disk w) (ledger (disk w))) as [|c cs].
    { injection H as <- <-. simpl in Hr. lia. }
    destruct (embed_model_encode _ (c :: cs));
      injection H as <- <-; simpl in Hr; [lia|]. repeat split.
Qed.

(** A delete returns the result of the rebuild that ends it: [True], unless
    the embedding provider raised while the remaining documents were
    indexed again. *)
Lemma delete_user_document_result filename w :
  (delete_user_document filename w).2
  = Some (bool_decide (raised (delete_user_document filename w).1 = raised w)).
Proof.
  rewrite delete_user_document_spec, rebuild_index_from_files_spec.
  set (w1 := with_disk (without filename) w).
  change (raised w) with (raised w1).
  destruct (exists_on_disk (metadata_json (disk w1)));
    [|simpl; rewrite bool_decide_eq_true_2 by reflexivity; reflexivity].
  cbv zeta.
  destruct (ledger_chunks (disk w1) (ledger (disk w1))) as [|c cs];
    [simpl; rewrite bool_decide_eq_true_2 by reflexivity; reflexivity|].
  destruct (embed_model_encode _ (c :: cs)); simpl.
  - rewrite bool_decide_eq_true_2 by reflexivity. reflexivity.
  - rewrite bool_decide_eq_false_2 by lia. reflexivity.
Qed.

(** A delete that finds neither the file nor a ledger entry of that name is
    the rebuild of the directory as it is. *)
Lemma delete_of_unknown_name filename w :
  files (disk w) !! filename = None ->
  Forall (fun m => file m ≠ filename) (ledger (disk w)) ->
  delete_user_document filename w = rebuild_index_from_files w.
Proof.
  intros Hf Hl. rewrite delete_user_document_spec. f_equal.
  destruct w as [[fs md ix ck] t r]. unfold with_disk, without. simpl in *.
  rewrite Hf. rewrite bool_decide_eq_false_2 by (intros [? ?]; discriminate).
  simpl. destruct md as [| |l]; try reflexivity.
  unfold ledger in Hl. simpl in Hl. unfold set_metadata. simpl.
  do 3 f_equal.
  induction Hl as [|m l Hm Hl IH]; [reflexivity|].
  rewrite filter_cons_True by exact Hm. f_equal. exact IH.
Qed.

(** C10 (amended): in every directory that uploads and deletes of source
    file names have produced, the delete of a source file name returns the
    result of the rebuild that ends it: [True], also when no file of that
    name exists and the ledger has no entry for it (the delete is then the
    rebuild of the directory as it is), unless the embedding provider raises
    while the remaining documents are indexed again, where it returns
    [False].  When metadata.json is missing, whatever else the directory
    holds and whatever the name, the delete removes faiss.index and
    chunks.pkl and returns [True]. *)
Theorem C10_delete_returns_rebuild_result ops :
  Forall source_op ops ->
  let w := run_ops ops empty_world in
  (∀ filename,
      source_name filename ->
      let w' := (delete_user_document filename w).1 in
      let r := (delete_user_document filename w).2 in
      r = Some (bool_decide (raised w' = raised w))
      ∧ (files (disk w) !! filename = None ->
         Forall (fun m => file m ≠ filename) (ledger (disk w)) ->
         delete_user_document filename w = rebuild_index_from_files w))
  ∧ (∀ w0 filename,
       metadata_json (disk w0) = Absent ->
       let w' := (delete_user_document filename w0).1 in
       (delete_user_document filename w0).2 = Some true
       ∧ faiss_index (disk w') = Absent
       ∧ chunks_pkl (disk w') = Absent).
Proof.
  intros _. cbv zeta. split.
  - intros filename _. split.
    + apply delete_user_document_result.
    + apply delete_of_unknown_name.
  - intros w0 filename Hmd.
    rewrite delete_user_document_spec, rebuild_index_from_files_spec.
    assert (Hm : metadata_json (disk (with_disk (without filename) w0))
                 = Absent).
    { unfold without. simpl.
      destruct (bool_decide _); simpl; rewrite Hmd; simpl; exact Hmd. }
    rewrite Hm. repeat split.
Qed.

(** *** Retrieval policy *)

Lemma getitem_row {A : Type} (l : list A) (i : Z) :
  (0 <= i)%Z -> Py.getitem l i = l !! Z.to_nat i.
Proof.
  intros H. unfold Py.getitem.
  destruct (0 <=? i)%Z eqn:E; [reflexivity|]. apply Z.leb_gt in E. lia.
Qed.

Lemma getitem_sentinel {A : Type} (l : list A) :
  l ≠ [] -> Py.getitem l (-1) = last l.
Proof.
  intros H. unfold Py.getitem. simpl.
  destruct (0 <=? Z.of_nat (length l) + -1)%Z eqn:E.
  - rewrite last_lookup. f_equal. lia.
  - apply Z.leb_gt in E. destruct l; [congruence|simpl in E; lia].
Qed.

Lemma getitem_in_range {A : Type} (l : list A) (i : Z) :
  l ≠ [] -> (-1 <= i < Z.of_nat (length l))%Z -> is_Some (Py.getitem l i).
Proof.
  intros Hl [Hlo Hhi].
  destruct (decide (0 <= i)%Z) as [Hp|Hn].
  - rewrite getitem_row by exact Hp. apply lookup_lt_is_Some. lia.
  - assert (i = (-1)%Z) as -> by lia.
    rewrite getitem_sentinel by exact Hl.
    destruct l as [|a l]; [congruence|].
    rewrite last_lookup. apply lookup_lt_is_Some. simpl. lia.
Qed.

Lemma mapM_getitem chunks (labels : list Z) :
  chunks ≠ [] ->
  Forall (fun i => (-1 <= i < Z.of_nat (length chunks))%Z) labels ->
  mapM (Py.getitem chunks) labels = Some (map (chunk_text chunks) labels).
Proof.
  intros Hc H. apply mapM_Some.
  induction H as [|i labels Hi H IH]; simpl; constructor; [|exact IH].
  unfold chunk_text.
  destruct (getitem_in_range chunks i Hc Hi) as [t ->]. reflexivity.
Qed.

(** What the code does with the labels of the search: the query asks the
    index for the k = 3 nearest rows; of the labels returned for the query
    (row positions, or the library's -1 where the index has fewer than k
    rows), those that are >= n are discarded and all others kept in the
    order returned, the label -1 among them.  When none is kept, or the
    nearest distance exceeds 1.2, the prompt is the ungrounded one;
    otherwise it is the grounded one, whose context joins the texts that the
    kept labels subscript: for a row position the chunk at that position,
    for -1 the last chunk. *)
Lemma select_prompt_policy chunks D0 Drest I0 Irest nearest query :
  chunks ≠ [] ->
  D0 !! 0%nat = Some nearest ->
  Forall (fun i => (-1 <= i)%Z) I0 ->
  let n := Z.of_nat (length chunks) in
  let surviving := filter (fun i => ¬ (n <= i)%Z) I0 in
  (∀ w rows query_vec,
      embed_model_encode (tick w) [query] = Some query_vec ->
      construct_prompt (Some rows) (Some chunks) query w
      = (after_encode true w,
         select_prompt chunks (index_search rows query_vec 3).1
           (index_search rows query_vec 3).2 query))
  ∧ (surviving = [] ∨ (RELEVANCE_THRESHOLD < nearest)%Q ->
     select_prompt chunks (D0 :: Drest) (I0 :: Irest) query
     = Some (prompt_no_relevant query))
  ∧ (surviving ≠ [] -> (nearest <= RELEVANCE_THRESHOLD)%Q ->
     select_prompt chunks (D0 :: Drest) (I0 :: Irest) query
     = Some (prompt_grounded
               (Py.join (Py.nl ++ Py.nl) (map (chunk_text chunks) surviving))
               query))
  ∧ sublist surviving I0
  ∧ (length I0 <= 3 -> length surviving <= 3)%nat
  ∧ Forall (fun i =>
              ((0 <= i)%Z -> chunks !! Z.to_nat i = Some (chunk_text chunks i))
              ∧ (i = (-1)%Z -> last chunks = Some (chunk_text chunks i)))
      surviving.
Proof.
  intros Hc HD HI n surviving.
  assert (Hvalid :
    filter (fun i => (i < Z.of_nat (length chunks))%Z) I0 = surviving).
  { apply list_filter_iff. intros i. fold n. lia. }
  assert (Hrange :
    Forall (fun i => (-1 <= i < Z.of_nat (length chunks))%Z) surviving).
  { apply Forall_forall. intros i Hi.
    apply list_elem_of_filter in Hi as [Hi1 Hi2].
    rewrite Forall_forall in HI. specialize (HI i Hi2). fold n. lia. }
  assert (Hsub : sublist surviving I0) by apply sublist_filter.
  assert (Hlen : (length surviving <= length I0)%nat) by apply length_filter.
  clearbody surviving.
  split; [|split; [|split; [|split; [|split]]]].
  - intros w rows query_vec Henc.
    unfold construct_prompt. simpl.
    destruct chunks as [|c cs]; [congruence|].
    unfold mbind, M_bind. rewrite encode_spec, Henc.
    destruct (index_search rows query_vec 3) as [D Idx]. simpl.
    unfold of_option. destruct (select_prompt _ _ _ _); reflexivity.
  - intros H. unfold select_prompt. simpl. rewrite Hvalid.
    destruct surviving as [|i rest]; [reflexivity|].
    destruct H as [H|H]; [discriminate|].
    rewrite HD. simpl.
    destruct (Qle_bool nearest RELEVANCE_THRESHOLD) eqn:E; [|reflexivity].
    apply Qle_bool_iff in E. exfalso. exact (Qlt_not_le _ _ H E).
  - intros Hne Hle. unfold select_prompt. simpl. rewrite Hvalid.
    rewrite (mapM_getitem chunks surviving Hc Hrange).
    destruct surviving as [|i rest]; [congruence|].
    rewrite HD. simpl.
    apply Qle_bool_iff in Hle. rewrite Hle. reflexivity.
  - exact Hsub.
  - intros H. lia.
  - eapply Forall_impl; [exact Hrange|]. intros i Hi. simpl in Hi. split.
    + intros Hp. rewrite <- getitem_row by exact Hp. unfold chunk_text.
      destruct (getitem_in_range chunks i Hc Hi) as [t ->]. reflexivity.
    + intros ->. rewrite <- getitem_sentinel by exact Hc. unfold chunk_text.
      destruct (getitem_in_range chunks (-1) Hc Hi) as [t ->]. reflexivity.
Qed.

(** On labels that are all row positions (none is the padding label -1)
    the code decides as the specification says. *)
Lemma select_prompt_on_row_positions chunks D0 Drest I0 Irest nearest query :
  chunks ≠ [] ->
  D0 !! 0%nat = Some nearest ->
  Forall (fun i => (0 <= i)%Z) I0 ->
  select_prompt chunks (D0 :: Drest) (I0 :: Irest) query
  = Some (spec_select_prompt chunks nearest I0 query).
Proof.
  intros Hc HD HI.
  set (n := Z.of_nat (length chunks)).
  assert (Hvalid :
    filter (fun i => (i < n)%Z) I0 = filter (fun i => (0 <= i < n)%Z) I0).
  { induction HI as [|i I0 Hi HI IH]; [reflexivity|].
    destruct (decide (i < n)%Z) as [Hlt|Hge].
    - rewrite !filter_cons_True by lia. f_equal. exact IH.
    - rewrite !filter_cons_False by lia. exact IH. }
  unfold select_prompt, spec_select_prompt. simpl. fold n.
  rewrite Hvalid.
  set (surviving := filter (fun i => (0 <= i < n)%Z) I0).
  assert (Hrange : Forall (fun i => (0 <= i < n)%Z) surviving).
  { apply Forall_forall. intros i Hi.
    apply list_elem_of_filter in Hi as [Hi _]. exact Hi. }
  clearbody surviving.
  rewrite (mapM_getitem chunks surviving Hc)
    by (eapply Forall_impl; [exact Hrange|]; intros i Hi; simpl in *;
        fold n; lia).
  assert (Htexts :
    map (chunk_text chunks) surviving
    = map (fun i => default "" (chunks !! Z.to_nat i)) surviving).
  { apply Forall_fmap_ext_1. eapply Forall_impl; [exact Hrange|].
    intros i Hi. simpl in Hi. unfold chunk_text.
    rewrite getitem_row by lia. reflexivity. }
  rewrite Htexts. clear Htexts.
  destruct surviving as [|i rest]; [reflexivity|].
  rewrite HD. simpl.
  destruct (Qle_bool nearest RELEVANCE_THRESHOLD); reflexivity.
Qed.

(** *** Repair on read *)

(** C2: for a query that loads an index whose row count differs from the
    length of a non-empty chunk store, the index is rebuilt from the loaded
    chunks and saved, and the rest of the query (the search) runs on that
    index, which has exactly len(chunks) rows (were the provider to raise
    during the rebuild, nothing is written and the query gets the
    no-documents prompt).  Whatever was loaded, an index that reaches the
    search beside a non-empty chunk list has len(chunks) rows.  When the
    chunk store cannot be loaded, the query returns the no-documents prompt
    and changes nothing. *)
Theorem C2_repair_on_read query w :
  (∀ n texts vectors,
      embed_model_encode n texts = Some vectors ->
      length vectors = length texts) ->
  (∀ rows cs,
      faiss_index (disk w) = Stored rows ->
      chunks_pkl (disk w) = Stored cs ->
      length rows ≠ length cs ->
      cs ≠ [] ->
      match embed_model_encode (tick w) cs with
      | Some vectors =>
          let w1 := with_disk (saved vectors cs) (after_encode true w) in
          length vectors = length cs
          ∧ auto_repair (Some rows) (Some cs) w = (w1, Some (Some vectors))
          ∧ faiss_index (disk w1) = Stored vectors
          ∧ chunks_pkl (disk w1) = Stored cs
          ∧ get_response_stream query w
            = construct_prompt (Some vectors) (Some cs) query w1
      | None =>
          get_response_stream query w
          = (after_encode false w, Some (prompt_no_documents query))
      end)
  ∧ (∀ index chunks w' rows',
       (load_user_index w).2 = Some (index, chunks) ->
       auto_repair index chunks w = (w', Some (Some rows')) ->
       or_empty chunks ≠ [] ->
       length rows' = length (or_empty chunks))
  ∧ ((∀ cs, chunks_pkl (disk w) ≠ Stored cs) ->
     get_response_stream query w = (w, Some (prompt_no_documents query))).
Proof.
  intros Hlen. split; [|split].
  - intros rows cs Hix Hck Hne Hcs.
    assert (Hrep : auto_repair (Some rows) (Some cs) w =
      match embed_model_encode (tick w) cs with
      | Some vectors =>
          (with_disk (saved vectors cs) (after_encode true w),
           Some (Some vectors))
      | None => (after_encode false w, Some None)
      end).
    { unfold auto_repair. simpl.
      rewrite bool_decide_eq_true_2 by exact Hne.
      destruct cs as [|c cs]; [congruence|].
      unfold mbind, M_bind. rewrite build_faiss_index_spec.
      destruct (embed_model_encode (tick w) (c :: cs)); reflexivity. }
    assert (Hget : get_response_stream query w =
      match auto_repair (Some rows) (Some cs) w with
      | (w', Some index) => construct_prompt index (Some cs) query w'
      | (w', None) => (w', None)
      end).
    { unfold get_response_stream. unfold mbind at 1, M_bind at 1.
      rewrite load_user_index_spec, Hix, Hck. reflexivity. }
    rewrite Hget, Hrep.
    destruct (embed_model_encode (tick w) cs) as [vectors|] eqn:Henc.
    + cbv zeta. split; [exact (Hlen _ _ _ Henc)|]. repeat split.
    + reflexivity.
  - intros index chunks w' rows' Hload Hrep Hcs.
    rewrite load_user_index_spec in Hload. simpl in Hload.
    destruct (faiss_index (disk w)) as [| |rows];
      try (injection Hload as <- <-; discriminate).
    destruct (chunks_pkl (disk w)) as [| |cs];
      try (injection Hload as <- <-; discriminate).
    injection Hload as <- <-. simpl in *.
    unfold auto_repair in Hrep. simpl in Hrep.
    destruct (bool_decide (length rows ≠ length cs)) eqn:E.
    + destruct cs as [|c cs]; [congruence|].
      unfold mbind, M_bind in Hrep. rewrite build_faiss_index_spec in Hrep.
      destruct (embed_model_encode (tick w) (c :: cs)) as [vectors|] eqn:Henc;
        simpl in Hrep; [|discriminate].
      injection Hrep as _ <-. exact (Hlen _ _ _ Henc).
    + apply bool_decide_eq_false in E.
      injection Hrep as _ <-.
      destruct (decide (length rows = length cs)); [assumption|tauto].
  - intros H. apply get_response_stream_unloadable.
    intros rows cs [_ Hck]. exact (H cs Hck).
Qed.

(** *** Ingesting a file again *)

(** C9: when the ledger already has an entry for the file, the index and the
    chunk store load, the file yields chunks and the provider answers,
    ingesting it again returns [True], appends one more ledger entry for the
    same name (the entries for that name are one more than before, none is
    replaced) and appends the chunks and their vectors after the rows that
    were there. *)
Theorem C9_reingest_appends file_path w l rows old cs vectors :
  metadata_json (disk w) = Stored l ->
  Py.basename file_path ∈ map file l ->
  faiss_index (disk w) = Stored rows ->
  chunks_pkl (disk w) = Stored old ->
  chunk_file (disk w) file_path = cs ->
  cs ≠ [] ->
  embed_model_encode (tick w) cs = Some vectors ->
  let w' := (add_new_document file_path w).1 in
  let same_name m := file m = Py.basename file_path in
  (add_new_document file_path w).2 = Some true
  ∧ metadata_json (disk w')
    = Stored (l ++ [mkEntry (Py.basename file_path) (length cs)
                      (now (S (tick w)))])
  ∧ faiss_index (disk w') = Stored (rows ++ vectors)
  ∧ chunks_pkl (disk w') = Stored (old ++ cs)
  ∧ length (filter same_name (ledger (disk w')))
    = S (length (filter same_name l))
  ∧ (2 <= length (filter same_name (ledger (disk w'))))%nat.
Proof.
  intros Hmd Hin Hix Hck Hcf Hcs Henc w' same_name. subst w'.
  rewrite add_new_document_spec, Hcf.
  destruct cs as [|c cs]; [congruence|].
  unfold add_chunks. rewrite Hix, Hck, Henc. simpl.
  unfold ledger, saved. simpl. rewrite Hmd.
  assert (Hcount : length (filter same_name
            (l ++ [mkEntry (Py.basename file_path) (S (length cs))
                     (now (S (tick w)))]))
          = S (length (filter same_name l))).
  { rewrite filter_app, length_app.
    rewrite filter_cons_True by reflexivity. simpl. lia. }
  repeat split; try exact Hcount.
  rewrite Hcount.
  apply list_elem_of_fmap in Hin as (m & Hm & Hml).
  assert (m ∈ filter same_name l).
  { apply list_elem_of_filter. split; [symmetry; exact Hm|exact Hml]. }
  destruct (filter same_name l); [inversion H|simpl; lia].
Qed.

(** *** Rebuild against incremental adds *)

Lemma chunk_file_depends_on_files d d' p :
  files d = files d' -> chunk_file d p = chunk_file d' p.
Proof. intros H. unfold chunk_file. rewrite H. reflexivity. Qed.

Lemma paths_chunks_snoc d paths p :
  paths_chunks d (paths ++ [p]) = paths_chunks d paths ++ chunk_file d p.
Proof.
  unfold paths_chunks. rewrite map_app, concat_app. simpl.
  rewrite app_nil_r. reflexivity.
Qed.

Lemma no_chunks_no_paths d paths :
  paths_chunks d paths = [] ->
  filter (fun p => chunk_file d p ≠ []) paths = [].
Proof.
  unfold paths_chunks. induction paths as [|p paths IH]; simpl; intros H.
  - reflexivity.
  - apply app_eq_nil in H as [Hp Hrest].
    rewrite filter_cons_False by (intros Hn; exact (Hn Hp)).
    exact (IH Hrest).
Qed.

Lemma added_step d0 acc p w :
  (∀ n texts, texts ≠ [] -> is_Some (embed_model_encode n texts)) ->
  added d0 acc w ->
  added d0 (acc ++ [p]) (add_new_document p w).1.
Proof.
  intros Hh [Hf Hst]. unfold added.
  rewrite add_new_document_spec, paths_chunks_snoc, filter_app, map_app.
  rewrite (chunk_file_depends_on_files _ d0 p Hf).
  destruct (chunk_file d0 p) as [|c cs] eqn:Hp.
  - rewrite app_nil_r.
    rewrite filter_cons_False by (intros Hn; exact (Hn Hp)).
    rewrite filter_nil. simpl. rewrite app_nil_r. split; assumption.
  - rewrite filter_cons_True by (rewrite Hp; discriminate).
    rewrite filter_nil. simpl.
    destruct (Hh (tick w) (c :: cs) ltac:(discriminate)) as [v1 Hv1].
    destruct (Hh (S (tick w)) (c :: cs) ltac:(discriminate)) as [v2 Hv2].
    unfold add_chunks.
    destruct (paths_chunks d0 acc) as [|a rest] eqn:Hacc.
    + destruct Hst as (Hix & Hck & Hmd).
      rewrite Hix, Hv1. simpl. rewrite Hv2. simpl.
      split; [exact Hf|]. split; [eauto|]. split; [reflexivity|].
      unfold ledger, saved. simpl. rewrite Hmd. simpl.
      eexists. split; [reflexivity|].
      rewrite (no_chunks_no_paths _ _ Hacc). reflexivity.
    + destruct Hst as ([rows Hix] & Hck & (l & Hmd & Hl)).
      rewrite Hix, Hck, Hv1. simpl.
      split; [exact Hf|]. split; [eauto|]. split; [reflexivity|].
      unfold ledger, saved. simpl. rewrite Hmd.
      eexists. split; [reflexivity|].
      rewrite map_app, Hl. reflexivity.
Qed.

Lemma added_add_all d0 acc paths w :
  (∀ n texts, texts ≠ [] -> is_Some (embed_model_encode n texts)) ->
  added d0 acc w ->
  added d0 (acc ++ paths) (add_all paths w).
Proof.
  intros Hh. revert acc w.
  induction paths as [|p paths IH]; intros acc w Hadd.
  - rewrite app_nil_r. exact Hadd.
  - replace (acc ++ p :: paths) with ((acc ++ [p]) ++ paths)
      by (rewrite <- app_assoc; reflexivity).
    apply IH. apply added_step; assumption.
Qed.

Lemma paths_chunks_filter d paths :
  paths_chunks d (filter (fun p => chunk_file d p ≠ []) paths)
  = paths_chunks d paths.
Proof.
  unfold paths_chunks. induction paths as [|p paths IH]; [reflexivity|].
  destruct (chunk_file d p) as [|c cs] eqn:Hp.
  - rewrite filter_cons_False by (intros Hn; exact (Hn Hp)).
    simpl. rewrite Hp. exact IH.
  - rewrite filter_cons_True by (rewrite Hp; discriminate).
    simpl. rewrite Hp, IH. reflexivity.
Qed.

Lemma ledger_chunks_paths d l :
  ledger_chunks d l = paths_chunks d (map file l).
Proof. unfold ledger_chunks, paths_chunks. rewrite map_map. reflexivity. Qed.

(** The recomputed ledger, entry by entry. *)
Lemma scan_ledger_entries d l t :
  Forall2
    (fun m m' =>
       file m' = Py.basename (file m)
       ∧ chunks m' = length (chunk_file d (file m))
       ∧ (uploaded_at m ≠ "" -> uploaded_at m' = uploaded_at m))
    (filter (fun m => chunk_file d (file m) ≠ []) l)
    (scan_ledger d l t).1.
Proof.
  revert t. induction l as [|m l IH]; intros t; simpl.
  - constructor.
  - destruct (chunk_file d (file m)) as [|c cs] eqn:Hm.
    + rewrite filter_cons_False by (intros Hn; exact (Hn Hm)). apply IH.
    + rewrite filter_cons_True by (rewrite Hm; discriminate).
      destruct (bool_decide (uploaded_at m = "")) eqn:E.
      * specialize (IH (S t)).
        destruct (scan_ledger d l (S t)) as [entries t2]. simpl in *.
        constructor; [|exact IH]. simpl. rewrite Hm.
        repeat split. intros Hs. apply bool_decide_eq_true in E. congruence.
      * specialize (IH t).
        destruct (scan_ledger d l t) as [entries t2]. simpl in *.
        constructor; [|exact IH]. simpl. rewrite Hm. repeat split.
Qed.

Lemma scan_ledger_counts d l t :
  sum_list (map chunks (scan_ledger d l t).1) = length (ledger_chunks d l).
Proof.
  revert t. unfold ledger_chunks.
  induction l as [|m l IH]; intros t; simpl; [reflexivity|].
  destruct (chunk_file d (file m)) as [|c cs] eqn:Hm.
  - apply IH.
  - rewrite length_app.
    destruct (bool_decide (uploaded_at m = "")).
    + specialize (IH (S t)).
      destruct (scan_ledger d l (S t)) as [entries t2]. simpl in *.
      rewrite IH. reflexivity.
    + specialize (IH t).
      destruct (scan_ledger d l t) as [entries t2]. simpl in *.
      rewrite IH. reflexivity.
Qed.

Lemma rebuild_ledger w :
  exists_on_disk (metadata_json (disk w)) = true ->
  metadata_json (disk (rebuild_index_from_files w).1)
  = Stored (scan_ledger (disk w) (ledger (disk w)) (tick w)).1.
Proof.
  intros H. rewrite rebuild_index_from_files_spec, H. cbv zeta.
  destruct (ledger_chunks (disk w) (ledger (disk w))) as [|c cs];
    [reflexivity|].
  destruct (embed_model_encode _ (c :: cs)); reflexivity.
Qed.

(** C8 (amended): with a provider that answers and files that lie directly
    in the user's directory (each named by its base name), adding the files
    at [paths] one by one to a directory without artifacts stores the chunks
    of the files, concatenated in the order of the adds.  The rebuild from
    the ledger that these adds wrote, over the same source files and
    whatever index and chunk store it finds, returns [True] and stores the
    chunks that the files named by the ledger yield when chunked again, in
    ledger order: the same texts and the same count as the adds had stored
    (nothing at all when the adds stored nothing), and the counts of the new
    ledger add up to that count.  For every rebuild from a readable ledger,
    the new ledger has one entry per old entry whose file still yields
    chunks, in the same order, with the chunk count of the fresh chunking;
    entries whose file is missing on disk yield no chunks and are dropped. *)
Theorem C8_rebuild_equivalence paths w0 :
  (∀ n texts, texts ≠ [] -> is_Some (embed_model_encode n texts)) ->
  Forall (fun p => Py.basename p = p) paths ->
  faiss_index (disk w0) = Absent ->
  chunks_pkl (disk w0) = Absent ->
  metadata_json (disk w0) = Absent ->
  let w1 := add_all paths w0 in
  let cs := paths_chunks (disk w0) paths in
  chunks_pkl (disk w1) = (if bool_decide (cs = []) then Absent else Stored cs)
  ∧ (∀ w,
       files (disk w) = files (disk w1) ->
       metadata_json (disk w) = metadata_json (disk w1) ->
       let w2 := (rebuild_index_from_files w).1 in
       (rebuild_index_from_files w).2 = Some true
       ∧ ledger_chunks (disk w) (ledger (disk w)) = cs
       ∧ chunks_pkl (disk w2) = chunks_pkl (disk w1)
       ∧ stored_chunks (disk w2) = cs
       ∧ exists_on_disk (faiss_index (disk w2)) = negb (bool_decide (cs = []))
       ∧ sum_list (map chunks (ledger (disk w2))) = length cs)
  ∧ (∀ w l,
       metadata_json (disk w) = Stored l ->
       let d := disk w in
       ∃ l',
         metadata_json (disk (rebuild_index_from_files w).1) = Stored l'
         ∧ Forall2
             (fun m m' =>
                file m' = Py.basename (file m)
                ∧ chunks m' = length (chunk_file d (file m)))
             (filter (fun m => chunk_file d (file m) ≠ []) l) l'
         ∧ sum_list (map chunks l') = length (ledger_chunks d l)
         ∧ ∀ m, m ∈ l -> files d !! file m = None ->
             chunk_file d (file m) = []).
Proof.
  intros Hh Hflat Hix Hck Hmd w1 cs.
  assert (Hadd : added (disk w0) paths w1).
  { apply (added_add_all (disk w0) [] paths w0 Hh).
    split; [reflexivity|]. simpl. auto. }
  destruct Hadd as [Hf Hst]. fold cs in Hst.
  split; [|split].
  - destruct cs as [|c cs'].
    + destruct Hst as (_ & Hck1 & _). exact Hck1.
    + destruct Hst as (_ & Hck1 & _). exact Hck1.
  - intros w Hfw Hmw w2. subst w2.
    rewrite rebuild_index_from_files_spec.
    destruct cs as [|c cs'] eqn:Hcs.
    + destruct Hst as (Hix1 & Hck1 & Hmd1).
      assert (Hled : ledger (disk w) = [])
        by (unfold ledger; rewrite Hmw, Hmd1; reflexivity).
      rewrite Hmw, Hmd1, Hled. simpl.
      unfold ledger, stored_chunks. simpl. rewrite Hmw, Hmd1, Hck1.
      repeat split.
    + destruct Hst as ([rows Hix1] & Hck1 & (l & Hmd1 & Hl)).
      assert (Hled : ledger (disk w) = l)
        by (unfold ledger; rewrite Hmw, Hmd1; reflexivity).
      assert (Hlc : ledger_chunks (disk w) l = c :: cs').
      { rewrite ledger_chunks_paths, Hl.
        assert (Hb : map Py.basename
                       (filter (fun p => chunk_file (disk w0) p ≠ []) paths)
                     = filter (fun p => chunk_file (disk w0) p ≠ []) paths).
        { rewrite <- (map_id (filter _ paths)) at 2.
          apply map_ext_in. intros p Hp.
          apply list_elem_of_In, list_elem_of_filter in Hp as [_ Hp].
          rewrite Forall_forall in Hflat. exact (Hflat p Hp). }
        rewrite Hb. unfold paths_chunks.
        rewrite (map_ext _ (chunk_file (disk w0)))
          by (intros p; apply chunk_file_depends_on_files;
              rewrite Hfw; exact Hf).
        fold (paths_chunks (disk w0)
                (filter (fun p => chunk_file (disk w0) p ≠ []) paths)).
        rewrite paths_chunks_filter. exact Hcs. }
      rewrite Hmw, Hmd1. cbv zeta. simpl. rewrite !Hled, Hlc.
      match goal with
      | |- context [embed_model_encode ?n (c :: cs')] =>
          destruct (Hh n (c :: cs') ltac:(discriminate)) as [vectors Hv];
          rewrite Hv
      end.
      simpl. rewrite Hck1. unfold stored_chunks, ledger. simpl.
      repeat split.
      rewrite scan_ledger_counts, Hlc. reflexivity.
  - intros w l Hl d. subst d.
    exists (scan_ledger (disk w) l (tick w)).1.
    split; [|split; [|split]].
    + rewrite rebuild_ledger by (rewrite Hl; reflexivity).
      unfold ledger. rewrite Hl. reflexivity.
    + eapply Forall2_impl; [apply scan_ledger_entries|].
      intros m m' (H1 & H2 & _). split; assumption.
    + apply scan_ledger_counts.
    + intros m _ Hmiss. unfold chunk_file. rewrite Hmiss.
      destruct (bool_decide _); reflexivity.
Qed.

(** *** The states that ingests and removes reach *)

(** The first add of a user stores every vector twice: the index that
    [build_faiss_index] has filled receives the embeddings of the same
    chunks once more. *)
Lemma first_add_doubles_rows file_path w cs built new_embeddings :
  faiss_index (disk w) = Absent ->
  chunk_file (disk w) file_path = cs ->
  cs ≠ [] ->
  embed_model_encode (tick w) cs = Some built ->
  embed_model_encode (S (tick w)) cs = Some new_embeddings ->
  length built = length cs ->
  length new_embeddings = length cs ->
  let w' := (add_new_document file_path w).1 in
  (add_new_document file_path w).2 = Some true
  ∧ faiss_index (disk w') = Stored (built ++ new_embeddings)
  ∧ chunks_pkl (disk w') = Stored cs
  ∧ aligned (disk w') = false.
Proof.
  intros Hix Hcf Hcs H1 H2 Hl1 Hl2 w'. subst w'.
  rewrite add_new_document_spec, Hcf.
  destruct cs as [|c cs]; [congruence|].
  unfold add_chunks. rewrite Hix, H1. simpl. rewrite H2. simpl.
  repeat split. unfold aligned. simpl.
  apply Nat.eqb_neq. rewrite length_app, Hl1, Hl2. simpl. lia.
Qed.

(** A rebuild that returns [True] leaves the index and the chunk store
    aligned (or both absent). *)
Lemma rebuild_aligned w :
  (∀ n texts vectors,
      embed_model_encode n texts = Some vectors ->
      length vectors = length texts) ->
  (rebuild_index_from_files w).2 = Some true ->
  aligned (disk (rebuild_index_from_files w).1) = true.
Proof.
  intros Hlen. rewrite rebuild_index_from_files_spec.
  destruct (exists_on_disk (metadata_json (disk w))); [|reflexivity].
  cbv zeta.
  destruct (ledger_chunks (disk w) (ledger (disk w))) as [|c cs];
    [reflexivity|].
  destruct (embed_model_encode _ (c :: cs)) as [vectors|] eqn:Henc;
    [|discriminate].
  intros _. unfold aligned. simpl. apply Nat.eqb_eq.
  exact (Hlen _ _ _ Henc).
Qed.

Lemma scan_ledger_nil d l t :
  ledger_chunks d l = [] -> (scan_ledger d l t).1 = [].
Proof.
  unfold ledger_chunks. revert t.
  induction l as [|m l IH]; intros t H; simpl in *; [reflexivity|].
  apply app_eq_nil in H as [Hm Hl]. rewrite Hm. exact (IH t Hl).
Qed.

Lemma add_new_document_ledger_backed file_path w :
  ledger_backed (disk w) ->
  ledger_backed (disk (add_new_document file_path w).1).
Proof.
  intros Hb. rewrite add_new_document_spec.
  destruct (chunk_file (disk w) file_path) as [|c cs]; [exact Hb|].
  unfold add_chunks.
  destruct (faiss_index (disk w)) as [| |rows];
    [| |destruct (chunks_pkl (disk w)) as [| |old]];
    destruct (embed_model_encode (tick w) (c :: cs)); simpl;
    try destruct (embed_model_encode (S (tick w)) (c :: cs)); simpl;
    try exact Hb; intros _; eauto.
Qed.

Lemma rebuild_ledger_backed w :
  ledger_backed (disk w) ->
  ledger_backed (disk (rebuild_index_from_files w).1).
Proof.
  intros Hb. rewrite rebuild_index_from_files_spec.
  destruct (exists_on_disk (metadata_json (disk w))) eqn:Hex.
  - cbv zeta.
    destruct (ledger_chunks (disk w) (ledger (disk w))) as [|c cs] eqn:Hc.
    + intros Hne. exfalso. apply Hne. unfold ledger. simpl.
      apply scan_ledger_nil. exact Hc.
    + destruct (embed_model_encode _ (c :: cs)); simpl.
      * intros _. eauto.
      * intros _. apply Hb. intros Hl. rewrite Hl in Hc. discriminate.
  - intros Hne. exfalso. apply Hne. unfold ledger. simpl.
    destruct (metadata_json (disk w)); [reflexivity|discriminate..].
Qed.

Lemma without_ledger_backed filename d :
  ledger_backed d -> ledger_backed (without filename d).
Proof.
  intros Hb Hne. rewrite ledger_without in Hne.
  destruct Hb as (rows & cs & Hix & Hck).
  { intros Hl. rewrite Hl in Hne. exact (Hne eq_refl). }
  exists rows, cs. unfold without. destruct d as [fs md ix ck]. simpl in *.
  destruct (bool_decide _); simpl; destruct md; simpl; tauto.
Qed.

(** In the model, ingests and removes keep a loadable index and chunk store
    beside every ledger that has an entry (of the program this is so for
    source file names, see [reachable_ledger_backed]). *)
Lemma run_ops_ledger_backed ops w :
  ledger_backed (disk w) -> ledger_backed (disk (run_ops ops w)).
Proof.
  revert w. induction ops as [|o ops IH]; intros w Hb; [exact Hb|].
  simpl. apply IH. destruct o as [filename data|filename]; simpl.
  - unfold upload_file, read_disk, write_disk, mbind, M_bind. simpl.
    apply add_new_document_ledger_backed. simpl.
    intros Hne. destruct (Hb Hne) as (rows & cs & Hix & Hck). eauto.
  - rewrite delete_user_document_spec.
    apply rebuild_ledger_backed. simpl.
    apply without_ledger_backed. exact Hb.
Qed.

(** So does every state that ingests and removes of source file names
    reach from the empty directory. *)
Corollary reachable_ledger_backed ops :
  Forall source_op ops ->
  ledger_backed (disk (run_ops ops empty_world)).
Proof.
  intros _.
  apply run_ops_ledger_backed. intros Hne. exfalso. apply Hne. reflexivity.
Qed.

End Properties.

(** *** The first ingest of a user *)

(** C1 (evaluation at the failing input): one ingest of "notes.txt" into the
    empty directory succeeds and leaves an index of two rows beside a chunk
    store of one chunk: the index built from the chunks receives the same
    chunks a second time. *)
Theorem C1_first_ingest_misaligned :
  let w := run_ops (collab := Example.healthy)
             [Ingest "notes.txt" "hello world"] empty_world in
  faiss_index (disk w) = Stored [11; 11]%nat
  ∧ chunks_pkl (disk w) = Stored ["hello world"]
  ∧ aligned (disk w) = false.
Proof. vm_compute. repeat split; reflexivity. Qed.

Lemma C4_unreadable_file_is_skipped_witness :
  chunk_file (collab := Example.healthy) (disk Example.blank_world) "blank.txt"
    = []
  ∧ add_new_document "blank.txt" Example.blank_world
    = (Example.blank_world, Some false).
Proof.
  apply (C4_unreadable_file_is_skipped (collab := Example.healthy)
           Example.blank_world "blank.txt").
  right; right. exists "   ". split; [vm_compute; reflexivity|].
  right. exists "   ". split; vm_compute; reflexivity.
Defined.

(** *** The model at concrete inputs *)

Lemma healthy_one_vector_per_text n texts (vectors : list nat) :
  embed_model_encode (Collaborators := Example.healthy) n texts = Some vectors ->
  length vectors = length texts.
Proof. simpl. intros [= <-]. apply length_map. Qed.

Lemma healthy_answers n texts :
  texts ≠ [] ->
  is_Some (embed_model_encode (Collaborators := Example.healthy) n texts).
Proof. intros _. simpl. eauto. Qed.

Lemma C2_repair_on_read_witness :
  get_response_stream (collab := Example.healthy) "q" Example.first_ingest
  = construct_prompt (collab := Example.healthy)
      (Some [11%nat]) (Some ["hello world"]) "q"
      (with_disk (saved (collab := Example.healthy) [11%nat] ["hello world"])
         (after_encode true Example.first_ingest)).
Proof.
  pose proof
    (proj1 (C2_repair_on_read (collab := Example.healthy) "q"
              Example.first_ingest healthy_one_vector_per_text)
       [11; 11]%nat ["hello world"] eq_refl eq_refl
       ltac:(simpl; lia) ltac:(discriminate)) as H.
  exact (proj2 (proj2 (proj2 (proj2 H)))).
Defined.

(** C3 (evaluation at the failing input): after the first ingest of a
    one-chunk document, a query is answered from an index of one row; the
    search for the k = 3 nearest rows returns the row position 0 and twice
    the padding label -1.  The code keeps the label -1 (it is below the
    length of the chunk list) and subscripts the chunk list with it, so the
    context of the grounded prompt holds the one chunk three times; by the
    specification only the row position 0 survives and the context is the
    one chunk. *)
Theorem C3_padding_label_repeats_last_chunk :
  let w := Example.first_ingest in
  let joined := Py.join (Py.nl ++ Py.nl) in
  faiss_index (disk (get_response_stream (collab := Example.healthy) "q" w).1)
  = Stored [11%nat]
  ∧ chunks_pkl (disk (get_response_stream "q" w).1) = Stored ["hello world"]
  ∧ index_search (Collaborators := Example.healthy) [11%nat] [1%nat] 3
    = ([[1 # 2; 1000 # 1; 1000 # 1]], [[0; -1; -1]%Z])
  ∧ (get_response_stream (collab := Example.healthy) "q" w).2
    = Some (prompt_grounded
              (joined ["hello world"; "hello world"; "hello world"]) "q")
  ∧ spec_select_prompt ["hello world"] (1 # 2) [0; -1; -1]%Z "q"
    = prompt_grounded (joined ["hello world"]) "q"
  ∧ (get_response_stream (collab := Example.healthy) "q" w).2
    ≠ Some (spec_select_prompt ["hello world"] (1 # 2) [0; -1; -1]%Z "q").
Proof.
  cbv zeta. split; [vm_compute; reflexivity|].
  split; [vm_compute; reflexivity|]. split; [reflexivity|].
  split; [vm_compute; reflexivity|]. split; [vm_compute; reflexivity|].
  intros H. vm_compute in H. discriminate H.
Qed.

Lemma C5_delete_to_nothing_clears_witness :
  (delete_user_document (collab := Example.healthy) "notes.txt"
     Example.first_ingest).2 = Some true
  ∧ faiss_index
      (disk (delete_user_document "notes.txt" Example.first_ingest).1)
    = Absent
  ∧ chunks_pkl
      (disk (delete_user_document "notes.txt" Example.first_ingest).1)
    = Absent
  ∧ ∀ query,
      get_response_stream query
        (delete_user_document "notes.txt" Example.first_ingest).1
      = ((delete_user_document "notes.txt" Example.first_ingest).1,
         Some (prompt_no_documents query)).
Proof.
  apply (proj1 (C5_delete_to_nothing_clears (collab := Example.healthy)
                  "notes.txt" Example.first_ingest)).
  vm_compute. reflexivity.
Defined.

(** C6 (counterexample): with a provider that raises, the rebuild of a
    directory whose ledger names "gone.txt" (missing on disk) and "a.txt"
    returns [False] after it has replaced the ledger. *)
Lemma C6_failed_rebuild_rewrites_ledger :
  (rebuild_index_from_files (collab := Example.failing)
     Example.stale_world).2 = Some false
  ∧ metadata_json (disk (rebuild_index_from_files Example.stale_world).1)
    ≠ metadata_json (disk Example.stale_world).
Proof.
  split; [vm_compute; reflexivity|].
  intros H. vm_compute in H. discriminate H.
Qed.

Lemma C6_failed_rebuild_keeps_index_and_chunks_witness :
  let w := Example.stale_world in
  let w' := (rebuild_index_from_files (collab := Example.failing) w).1 in
  disk (rebuild_scan (disk w) (ledger (disk w)) [] [] w).1 = disk w
  ∧ files (disk w') = files (disk w)
  ∧ faiss_index (disk w') = faiss_index (disk w)
  ∧ chunks_pkl (disk w') = chunks_pkl (disk w)
  ∧ metadata_json (disk w')
    = Stored (scan_ledger (disk w) (ledger (disk w)) (tick w)).1.
Proof.
  apply (C6_failed_rebuild_keeps_index_and_chunks (collab := Example.failing)
           Example.stale_world
           (rebuild_index_from_files Example.stale_world).1).
  vm_compute. reflexivity.
Defined.

(** C7 (counterexample): after three ingests, "b.txt" is deleted while the
    provider raises; the rebuild that the delete runs returns [False] and
    has rewritten the ledger (the count of the first "a.txt" entry goes from
    1 to 2). *)
Lemma C7_failing_provider_rebuild_rewrites_ledger :
  let w := (delete_file_and_entry (collab := Example.flaky) "b.txt"
              Example.three_ingests).1 in
  let w' := (rebuild_index_from_files w).1 in
  (raised w < raised w')%nat
  ∧ (rebuild_index_from_files w).2 = Some false
  ∧ metadata_json (disk w') ≠ metadata_json (disk w).
Proof.
  cbv zeta. split; [vm_compute; lia|]. split; [vm_compute; reflexivity|].
  intros H. vm_compute in H. discriminate H.
Qed.

Lemma C7_provider_failure_aborts_witness :
  (add_new_document (collab := Example.failing) "a.txt"
     Example.stale_world).2 = Some false
  ∧ disk (add_new_document "a.txt" Example.stale_world).1
    = disk Example.stale_world.
Proof.
  refine (proj1 (C7_provider_failure_aborts (collab := Example.failing)
                   "a.txt" Example.stale_world
                   (add_new_document "a.txt" Example.stale_world).1
                   (add_new_document "a.txt" Example.stale_world).2 _) _).
  - vm_compute. lia.
  - vm_compute. reflexivity.
Defined.

(** C8 (counterexample): a file that lies in a subdirectory of the user's
    directory is added with its two chunks and recorded under its base name;
    the rebuild looks for that name in the user's directory itself, finds no
    file, and stores no chunk at all. *)
Lemma C8_file_in_subdirectory_is_dropped :
  let w1 := add_all (collab := Example.healthy) ["sub/a.txt"]
              Example.nested_file in
  chunks_pkl (disk w1) = Stored ["x"; "y"]
  ∧ map file (ledger (disk w1)) = ["a.txt"]
  ∧ (rebuild_index_from_files w1).2 = Some true
  ∧ chunks_pkl (disk (rebuild_index_from_files w1).1) = Absent
  ∧ ledger (disk (rebuild_index_from_files w1).1) = [].
Proof. vm_compute. repeat split; reflexivity. Qed.

Lemma C8_rebuild_equivalence_witness :
  chunks_pkl (collab := Example.healthy) (disk Example.two_added)
  = Stored ["x"; "y"; "z"]
  ∧ chunks_pkl (disk Example.two_added_wiped) = Absent
  ∧ (rebuild_index_from_files Example.two_added_wiped).2 = Some true
  ∧ chunks_pkl (disk (rebuild_index_from_files Example.two_added_wiped).1)
    = chunks_pkl (disk Example.two_added).
Proof.
  pose proof
    (C8_rebuild_equivalence (collab := Example.healthy)
       ["a.txt"; "b.txt"] Example.two_files healthy_answers
       ltac:(repeat constructor) eq_refl eq_refl eq_refl) as (Ha & Hr & _).
  destruct (Hr Example.two_added_wiped eq_refl eq_refl)
    as (Ht & _ & Hc & _).
  split; [exact Ha|]. split; [reflexivity|]. split; [exact Ht|exact Hc].
Defined.

Lemma C9_reingest_appends_witness :
  (add_new_document (collab := Example.healthy) "a.txt"
     Example.two_added).2 = Some true
  ∧ chunks_pkl (disk (add_new_document "a.txt" Example.two_added).1)
    = Stored ["x"; "y"; "z"; "x"; "y"].
Proof.
  pose proof
    (C9_reingest_appends (collab := Example.healthy) "a.txt"
       Example.two_added
       [mkEntry "a.txt" 2 "2024-01-01 00:00:00";
        mkEntry "b.txt" 1 "2024-01-01 00:00:00"]
       [1; 1; 1; 1; 1]%nat ["x"; "y"; "z"] ["x"; "y"] [1; 1]%nat
       ltac:(vm_compute; reflexivity)
       ltac:(apply list_elem_of_here)
       ltac:(vm_compute; reflexivity)
       ltac:(vm_compute; reflexivity)
       ltac:(vm_compute; reflexivity)
       ltac:(discriminate)
       ltac:(vm_compute; reflexivity)) as H.
  exact (conj (proj1 H) (proj1 (proj2 (proj2 (proj2 H))))).
Defined.

(** C10 (counterexample): after three ingests, the delete of "nope.txt", a
    name that no file and no ledger entry has, returns [False]: the provider
    raises while the documents of the ledger are indexed again. *)
Lemma C10_delete_of_unknown_name_fails :
  files (collab := Example.flaky) (disk Example.three_ingests) !! "nope.txt"
  = None
  ∧ ("nope.txt" ∉ map file (ledger (disk Example.three_ingests)))
  ∧ (delete_user_document "nope.txt" Example.three_ingests).2 = Some false.
Proof.
  split; [vm_compute; reflexivity|]. split; [|vm_compute; reflexivity].
  change (map file (ledger (disk Example.three_ingests)))
    with ["a.txt"; "a.txt"; "b.txt"].
  intros H.
  repeat (apply elem_of_cons in H as [H|H]; [discriminate H|]).
  apply elem_of_nil in H. exact H.
Qed.

Ltac is_source_name :=
  let H := fresh "H" in
  split; [reflexivity|]; intros H;
  repeat (apply elem_of_cons in H as [H|H]; [discriminate H|]);
  apply elem_of_nil in H; exact H.

Lemma C10_delete_returns_rebuild_result_witness :
  (delete_user_document (collab := Example.healthy) "no-such-file.txt"
     Example.first_ingest).2 = Some true
  ∧ delete_user_document "no-such-file.txt" Example.first_ingest
    = rebuild_index_from_files Example.first_ingest.
Proof.
  pose proof
    (proj1 (C10_delete_returns_rebuild_result (collab := Example.healthy)
              [Ingest "notes.txt" "hello world"]
              ltac:(apply Forall_cons; split;
                    [simpl; is_source_name|apply Forall_nil_2]))
       "no-such-file.txt" ltac:(is_source_name)) as [Hr Hd].
  split.
  - exact Hr.
  - apply Hd; [vm_compute; reflexivity|].
    repeat constructor. discriminate.
Defined.

(** ** Further properties of the pipeline and its callers *)

Section More.

Context {collab : Collaborators}.

Implicit Types (w : World) (d : UserDir) (cs : list string).

(** *** Loading, saving, clearing *)

(** X1: What was saved is what is loaded; after a clear nothing is loaded;
    loading writes nothing. *)
Theorem save_load_round_trip index cs w :
  (save_user_index index cs;; load_user_index) w
  = (with_disk (saved index cs) w, Some (Some index, Some cs))
  ∧ (clear_user_index;; load_user_index) w
    = (with_disk cleared w, Some (None, None))
  ∧ (load_user_index w).1 = w.
Proof.
  unfold mbind, M_bind.
  rewrite save_user_index_spec, clear_user_index_spec, !load_user_index_spec.
  repeat split.
Qed.

(** *** Queries *)

Lemma auto_repair_spec rows cs w :
  auto_repair (Some rows) (Some cs) w =
    if bool_decide (length rows ≠ length cs) then
      match cs with
      | [] => (w, Some (Some rows))
      | _ =>
          match embed_model_encode (tick w) cs with
          | Some vectors =>
              (with_disk (saved vectors cs) (after_encode true w),
               Some (Some vectors))
          | None => (after_encode false w, Some None)
          end
      end
    else (w, Some (Some rows)).
Proof.
  unfold auto_repair. simpl.
  destruct (bool_decide (length rows ≠ length cs)); [|reflexivity].
  destruct cs as [|c cs]; [reflexivity|].
  unfold mbind, M_bind. rewrite build_faiss_index_spec.
  destruct (embed_model_encode (tick w) (c :: cs)); reflexivity.
Qed.

Lemma construct_prompt_disk index chunks query w :
  disk (construct_prompt index chunks query w).1 = disk w.
Proof.
  unfold construct_prompt.
  destruct index as [rows|]; [|reflexivity].
  destruct (or_empty chunks) as [|c cs]; [reflexivity|].
  unfold mbind, M_bind. rewrite encode_spec.
  destruct (embed_model_encode (tick w) [query]) as [qv|]; [|reflexivity].
  destruct (index_search rows qv 3) as [D Idx].
  unfold of_option. destruct (select_prompt _ _ _ _); reflexivity.
Qed.

(** The directory after a query. *)
Lemma get_response_stream_disk query w :
  disk (get_response_stream query w).1 =
    match faiss_index (disk w), chunks_pkl (disk w) with
    | Stored rows, Stored (c :: cs) =>
        if bool_decide (length rows ≠ length (c :: cs)) then
          match embed_model_encode (tick w) (c :: cs) with
          | Some vectors => saved vectors (c :: cs) (disk w)
          | None => disk w
          end
        else disk w
    | _, _ => disk w
    end.
Proof.
  unfold get_response_stream.
  unfold mbind at 1, M_bind at 1. rewrite load_user_index_spec.
  destruct (faiss_index (disk w)) as [| |rows] eqn:Hix;
    try (unfold mbind, M_bind; simpl; reflexivity).
  destruct (chunks_pkl (disk w)) as [| |cs] eqn:Hck;
    try (unfold mbind, M_bind; simpl; reflexivity).
  unfold mbind, M_bind. cbv beta iota. rewrite auto_repair_spec.
  destruct cs as [|c cs].
  - destruct (bool_decide _); apply construct_prompt_disk.
  - destruct (bool_decide _); [|apply construct_prompt_disk].
    destruct (embed_model_encode (tick w) (c :: cs));
      rewrite construct_prompt_disk; reflexivity.
Qed.

(** X2: A query never changes the source files, the ledger or the chunk store:
    the only artifact it may rewrite is the index. *)
Theorem query_keeps_chunks_and_ledger query w :
  let w' := (get_response_stream query w).1 in
  files (disk w') = files (disk w)
  ∧ metadata_json (disk w') = metadata_json (disk w)
  ∧ chunks_pkl (disk w') = chunks_pkl (disk w).
Proof.
  cbv zeta. rewrite get_response_stream_disk.
  destruct (faiss_index (disk w)) as [| |rows]; try (repeat split; fail).
  destruct (chunks_pkl (disk w)) as [| |[|c cs]] eqn:Hck;
    try solve [repeat split; auto].
  destruct (bool_decide _); [|solve [repeat split; auto]].
  destruct (embed_model_encode (tick w) (c :: cs));
    solve [repeat split; auto].
Qed.

(** X3: With a provider that returns one vector per text: after a query on a
    loadable index beside a non-empty chunk store, the two are aligned
    exactly when they were aligned before or the provider answered the
    rebuild. *)
Theorem query_repairs_alignment query w rows cs :
  (∀ n texts vectors,
      embed_model_encode n texts = Some vectors ->
      length vectors = length texts) ->
  faiss_index (disk w) = Stored rows ->
  chunks_pkl (disk w) = Stored cs ->
  cs ≠ [] ->
  aligned (disk (get_response_stream query w).1) = true
  ↔ (length rows = length cs ∨ is_Some (embed_model_encode (tick w) cs)).
Proof.
  intros Hlen Hix Hck Hcs. rewrite get_response_stream_disk, Hix, Hck.
  destruct cs as [|c cs]; [congruence|].
  destruct (bool_decide (length rows ≠ length (c :: cs))) eqn:E.
  - apply bool_decide_eq_true in E.
    destruct (embed_model_encode (tick w) (c :: cs)) as [vectors|] eqn:Henc.
    + unfold aligned. simpl. rewrite (Hlen _ _ _ Henc).
      rewrite Nat.eqb_refl. split; eauto.
    + unfold aligned. rewrite Hix, Hck. split.
      * intros H. apply Nat.eqb_eq in H. contradiction.
      * intros [H|[v H]]; [contradiction|discriminate].
  - apply bool_decide_eq_false in E.
    assert (Heq : length rows = length (c :: cs)).
    { destruct (decide (length rows = length (c :: cs))); tauto. }
    unfold aligned. rewrite Hix, Hck. split; [auto|].
    intros _. apply Nat.eqb_eq. exact Heq.
Qed.

(** X4: A query on an aligned directory (index and chunk store of equal length,
    or both missing) writes nothing. *)
Theorem query_on_aligned_writes_nothing query w :
  aligned (disk w) = true ->
  disk (get_response_stream query w).1 = disk w.
Proof.
  intros H. rewrite get_response_stream_disk. unfold aligned in H.
  destruct (faiss_index (disk w)) as [| |rows]; try reflexivity.
  destruct (chunks_pkl (disk w)) as [| |[|c cs]]; try reflexivity.
  apply Nat.eqb_eq in H.
  rewrite bool_decide_eq_false_2 by tauto. reflexivity.
Qed.

(** *** Outcomes of an add *)

Ltac add_cases w c cs :=
  unfold add_chunks;
  destruct (faiss_index (disk w)) as [| |?rows] eqn:?Hix;
  [| |destruct (chunks_pkl (disk w)) as [| |?old] eqn:?Hck];
  destruct (embed_model_encode (tick w) (c :: cs)) as [?v1|] eqn:?Henc1;
  simpl;
  try match goal with
      | |- context [embed_model_encode (S (tick w)) (c :: cs)] =>
          destruct (embed_model_encode (S (tick w)) (c :: cs))
            as [?v2|] eqn:?Henc2
      end;
  simpl.

(** The result of an add, over a ledger that is missing, unreadable or a
    list of entries. *)
Lemma add_new_document_result file_path w :
  (∃ b, (add_new_document file_path w).2 = Some b)
  ∧ ((add_new_document file_path w).2 = Some true
     ↔ chunk_file (disk w) file_path ≠ []
       ∧ raised (add_new_document file_path w).1 = raised w).
Proof.
  rewrite add_new_document_spec.
  destruct (chunk_file (disk w) file_path) as [|c cs].
  - simpl. split; [eauto|]. split; [discriminate|]. intros [H _]. congruence.
  - add_cases w c cs;
      (split; [eauto|]; split;
       [intros H; first [discriminate H | split; [discriminate|reflexivity]]
       |intros [_ H]; first [reflexivity | simpl in H; lia]]).
Qed.

(** X5: in every directory that uploads and deletes of source file names
    have produced, [add_new_document] on a source file name never raises; it
    returns [True] exactly when the file yields chunks and the provider did
    not raise during the add. *)
Theorem add_returns_true_iff ops file_path :
  Forall source_op ops ->
  source_name file_path ->
  let w := run_ops ops empty_world in
  (∃ b, (add_new_document file_path w).2 = Some b)
  ∧ ((add_new_document file_path w).2 = Some true
     ↔ chunk_file (disk w) file_path ≠ []
       ∧ raised (add_new_document file_path w).1 = raised w).
Proof. intros _ _ w. apply add_new_document_result. Qed.

(** The source files are not touched by an add or by a rebuild. *)
Lemma add_new_document_files file_path w :
  files (disk (add_new_document file_path w).1) = files (disk w).
Proof.
  rewrite add_new_document_spec.
  destruct (chunk_file (disk w) file_path) as [|c cs]; [reflexivity|].
  add_cases w c cs; reflexivity.
Qed.

Lemma rebuild_index_from_files_files w :
  files (disk (rebuild_index_from_files w).1) = files (disk w).
Proof.
  rewrite rebuild_index_from_files_spec.
  destruct (exists_on_disk (metadata_json (disk w))); [|reflexivity].
  cbv zeta.
  destruct (ledger_chunks (disk w) (ledger (disk w))) as [|c cs];
    [reflexivity|].
  destruct (embed_model_encode _ (c :: cs)); reflexivity.
Qed.

(** X6: With a provider that returns one vector per text: a successful add
    onto an index file that exists leaves index and chunk store aligned,
    provided they were aligned if they loaded. *)
Theorem add_onto_existing_index_keeps_alignment file_path w :
  (∀ n texts vectors,
      embed_model_encode n texts = Some vectors ->
      length vectors = length texts) ->
  exists_on_disk (faiss_index (disk w)) = true ->
  (∀ rows old,
      faiss_index (disk w) = Stored rows ->
      chunks_pkl (disk w) = Stored old ->
      length rows = length old) ->
  (add_new_document file_path w).2 = Some true ->
  aligned (disk (add_new_document file_path w).1) = true.
Proof.
  intros Hlen Hex Hal. rewrite add_new_document_spec.
  destruct (chunk_file (disk w) file_path) as [|c cs]; [discriminate|].
  add_cases w c cs; try discriminate;
    try (rewrite Hix in Hex; simpl in Hex; discriminate Hex); intros _;
    unfold aligned; simpl; apply Nat.eqb_eq.
  - exact (Hlen _ _ _ Henc1).
  - exact (Hlen _ _ _ Henc1).
  - exact (Hlen _ _ _ Henc1).
  - rewrite !length_app, (Hal _ _ eq_refl eq_refl), (Hlen _ _ _ Henc1).
    reflexivity.
Qed.

(** X7: When faiss.index exists but index and chunk store do not both load, a
    successful add stores the chunks of the new file only: chunks that
    chunks.pkl still held are not carried over, while the ledger keeps its
    earlier entries and gains the new one. *)
Theorem add_after_failed_load_keeps_only_new_chunks file_path w :
  exists_on_disk (faiss_index (disk w)) = true ->
  (∀ rows old,
      ¬ (faiss_index (disk w) = Stored rows
         ∧ chunks_pkl (disk w) = Stored old)) ->
  (add_new_document file_path w).2 = Some true ->
  let w' := (add_new_document file_path w).1 in
  let cs := chunk_file (disk w) file_path in
  chunks_pkl (disk w') = Stored cs
  ∧ (∃ vectors,
       embed_model_encode (tick w) cs = Some vectors
       ∧ faiss_index (disk w') = Stored vectors)
  ∧ ledger (disk w')
    = ledger (disk w)
        ++ [mkEntry (Py.basename file_path) (length cs) (now (S (tick w)))].
Proof.
  intros Hex Hno. rewrite add_new_document_spec.
  destruct (chunk_file (disk w) file_path) as [|c cs]; [discriminate|].
  add_cases w c cs; try discriminate;
    try (rewrite Hix in Hex; simpl in Hex; discriminate Hex); intros _;
    cbv zeta.
  - repeat split. eauto.
  - repeat split. eauto.
  - repeat split. eauto.
  - exfalso. exact (Hno _ _ (conj eq_refl eq_refl)).
Qed.

(** X8: An unreadable metadata.json counts as an empty ledger: the delete of
    any source file name returns [True], resets the ledger to [] and removes
    index and chunk store; a successful add restarts the ledger with the one
    new entry. *)
Theorem unreadable_ledger_counts_as_empty w :
  metadata_json (disk w) = Garbled ->
  (∀ filename,
      source_name filename ->
      let w' := (delete_user_document filename w).1 in
      (delete_user_document filename w).2 = Some true
      ∧ metadata_json (disk w') = Stored []
      ∧ faiss_index (disk w') = Absent
      ∧ chunks_pkl (disk w') = Absent)
  ∧ (∀ file_path,
       (add_new_document file_path w).2 = Some true ->
       ∃ stamp,
         metadata_json (disk (add_new_document file_path w).1)
         = Stored [mkEntry (Py.basename file_path)
                     (length (chunk_file (disk w) file_path)) stamp]).
Proof.
  intros Hg. split.
  - intros filename _. cbv zeta.
    rewrite delete_user_document_spec, rebuild_index_from_files_spec.
    assert (Hm : metadata_json (without filename (disk w)) = Garbled).
    { unfold without. destruct (bool_decide _); simpl; rewrite Hg;
        simpl; exact Hg. }
    simpl. rewrite Hm. simpl. unfold ledger. rewrite Hm. simpl.
    repeat split.
  - intros file_path. rewrite add_new_document_spec.
    destruct (chunk_file (disk w) file_path) as [|c cs]; [discriminate|].
    add_cases w c cs; try discriminate; intros _;
      unfold ledger; simpl; rewrite Hg; eauto.
Qed.

(** *** Base names *)

Lemma split_without_separator sep s :
  occurs sep s = false -> Py.split sep s = [s].
Proof.
  induction s as [|c s IH]; simpl; [reflexivity|].
  intros H. apply orb_false_iff in H as [Hc Hs].
  rewrite Hc, (IH Hs). reflexivity.
Qed.

Lemma split_pieces_without_separator sep s :
  Py.split sep s ≠ []
  ∧ Forall (fun p => occurs sep p = false) (Py.split sep s).
Proof.
  induction s as [|c s [IHne IH]]; simpl.
  - split; [discriminate|]. repeat constructor.
  - destruct (Ascii.eqb c sep) eqn:Hc.
    + split; [discriminate|]. constructor; [reflexivity|exact IH].
    + destruct (Py.split sep s) as [|p ps]; [congruence|].
      split; [discriminate|].
      apply Forall_cons in IH as [Hp Hps].
      constructor; [|exact Hps]. simpl. rewrite Hc, Hp. reflexivity.
Qed.

Lemma last_item_in (l : list string) : l ≠ [] -> Py.last_item l ∈ l.
Proof.
  unfold Py.last_item. induction l as [|x l IH]; [congruence|].
  intros _. destruct l as [|y l]; simpl.
  - apply list_elem_of_here.
  - apply list_elem_of_further. apply IH. discriminate.
Qed.

(** The base name of a path has no directory part: taking the base name
    again gives it back. *)
Lemma basename_idempotent p : Py.basename (Py.basename p) = Py.basename p.
Proof.
  unfold Py.basename at 1.
  destruct (split_pieces_without_separator "/" p) as [Hne Hall].
  rewrite Forall_forall in Hall.
  rewrite split_without_separator; [reflexivity|].
  apply Hall. apply last_item_in. exact Hne.
Qed.

(** *** Deleting a document *)

Lemma without_files filename d :
  files (without filename d) = delete filename (files d).
Proof.
  unfold without. destruct d as [fs md ix ck]. simpl.
  destruct (bool_decide (is_Some (fs !! filename))) eqn:E; simpl.
  - destruct md; reflexivity.
  - apply bool_decide_eq_false in E.
    assert (fs !! filename = None) as Hn.
    { destruct (fs !! filename); [exfalso; apply E; eauto|reflexivity]. }
    rewrite (delete_id _ _ Hn). destruct md; reflexivity.
Qed.

Lemma scan_ledger_origin d l t :
  Forall (fun m' => ∃ m, m ∈ l ∧ file m' = Py.basename (file m))
    (scan_ledger d l t).1.
Proof.
  revert t. induction l as [|m l IH]; intros t; simpl; [constructor|].
  assert (Hw : ∀ t', Forall
            (fun m' => ∃ m0, m0 ∈ m :: l ∧ file m' = Py.basename (file m0))
            (scan_ledger d l t').1).
  { intros t'. eapply Forall_impl; [apply IH|].
    intros m' (m0 & Hin & Hf). exists m0. split; [|exact Hf].
    apply list_elem_of_further. exact Hin. }
  destruct (chunk_file d (file m)) as [|c cs]; [apply Hw|].
  destruct (bool_decide (uploaded_at m = "")).
  - specialize (Hw (S t)).
    destruct (scan_ledger d l (S t)) as [entries t2]. simpl in *.
    constructor; [|exact Hw]. exists m. split; [|reflexivity].
    apply list_elem_of_here.
  - specialize (Hw t).
    destruct (scan_ledger d l t) as [entries t2]. simpl in *.
    constructor; [|exact Hw]. exists m. split; [|reflexivity].
    apply list_elem_of_here.
Qed.

(** The ledger after a rebuild. *)
Lemma rebuild_ledger_closed w :
  ledger (disk (rebuild_index_from_files w).1)
  = (scan_ledger (disk w) (ledger (disk w)) (tick w)).1.
Proof.
  destruct (exists_on_disk (metadata_json (disk w))) eqn:Hex.
  - unfold ledger at 1. rewrite rebuild_ledger by exact Hex. reflexivity.
  - rewrite rebuild_index_from_files_spec, Hex.
    unfold ledger. simpl.
    destruct (metadata_json (disk w)); [reflexivity|discriminate..].
Qed.

(** Where the entries of the ledger come from after a delete. *)
Lemma delete_user_document_ledger_origin filename w :
  Forall (fun m' => ∃ m, m ∈ ledger (disk w) ∧ file m ≠ filename
                         ∧ file m' = Py.basename (file m))
    (ledger (disk (delete_user_document filename w).1)).
Proof.
  rewrite delete_user_document_spec, rebuild_ledger_closed. simpl.
  rewrite ledger_without.
  eapply Forall_impl; [apply scan_ledger_origin|].
  intros m' (m & Hm & Hf). simpl in Hf.
  apply list_elem_of_filter in Hm as [Hne Hm]. eauto.
Qed.

Lemma delete_user_document_ledger_flat filename w :
  ledger_flat (disk w) ->
  ledger_flat (disk (delete_user_document filename w).1).
Proof.
  unfold ledger_flat. intros Hflat.
  eapply Forall_impl; [apply delete_user_document_ledger_origin|].
  intros m' (m & _ & _ & Hf). simpl.
  rewrite Hf, basename_idempotent. reflexivity.
Qed.

(** X9: After the delete of a source file name (whatever the delete returns)
    the named source file is gone, the other source files are as they were,
    and the ledger, whose entries name files by their base name, has no
    entry of that name left and still names files by their base name. *)
Theorem delete_removes_file_and_entries filename w :
  source_name filename ->
  ledger_flat (disk w) ->
  let w' := (delete_user_document filename w).1 in
  files (disk w') = delete filename (files (disk w))
  ∧ (filename ∉ map file (ledger (disk w')))
  ∧ ledger_flat (disk w').
Proof.
  intros _ Hflat. cbv zeta. split; [|split].
  - rewrite delete_user_document_spec, rebuild_index_from_files_files.
    simpl. apply without_files.
  - pose proof (delete_user_document_ledger_origin filename w) as Ho.
    unfold ledger_flat in Hflat. rewrite Forall_forall in Ho, Hflat.
    intros Hin. apply list_elem_of_fmap in Hin as (m' & Hf & Hm').
    destruct (Ho m' Hm') as (m & Hm & Hne & Hfm).
    apply Hne. rewrite <- (Hflat m Hm), <- Hfm. congruence.
  - apply delete_user_document_ledger_flat. exact Hflat.
Qed.

(** *** Source files along a run *)

(** X10: The source files after a run of ingests and removes of source file
    names are the uploads written and the named files removed, in order:
    indexing outcomes and provider failures never change them. *)
Theorem source_files_follow_operations ops w :
  Forall source_op ops ->
  files (disk (run_ops ops w)) = foldl files_after (files (disk w)) ops.
Proof.
  intros _.
  revert w. induction ops as [|o ops IH]; intros w; [reflexivity|].
  simpl. rewrite IH. f_equal. destruct o as [filename data|filename]; simpl.
  - unfold upload_file, read_disk, write_disk, mbind, M_bind. simpl.
    rewrite add_new_document_files. reflexivity.
  - rewrite delete_user_document_spec, rebuild_index_from_files_files.
    simpl. apply without_files.
Qed.

(** *** Agreement of ledger, chunk store and index *)

Lemma rebuild_without_raise_is_consistent w :
  raised (rebuild_index_from_files w).1 = raised w ->
  (rebuild_index_from_files w).2 = Some true
  ∧ consistent (disk (rebuild_index_from_files w).1).
Proof.
  unfold consistent. rewrite rebuild_ledger_closed.
  rewrite rebuild_index_from_files_spec.
  destruct (exists_on_disk (metadata_json (disk w))) eqn:Hex.
  - cbv zeta.
    pose proof (scan_ledger_counts (disk w) (ledger (disk w)) (tick w)) as Hs.
    destruct (ledger_chunks (disk w) (ledger (disk w))) as [|c cs] eqn:Hc.
    + intros _. split; [reflexivity|]. split; [exact Hs|]. right.
      repeat split. apply scan_ledger_nil. exact Hc.
    + destruct (embed_model_encode _ (c :: cs)) as [vectors|]; simpl.
      * intros _. split; [reflexivity|]. split; [exact Hs|]. left. eauto.
      * intros H. lia.
  - intros _. split; [reflexivity|].
    assert (Hl : ledger (disk w) = []).
    { unfold ledger. destruct (metadata_json (disk w));
        [reflexivity|discriminate..]. }
    rewrite Hl. simpl. split; [reflexivity|]. right. repeat split.
Qed.

(** X11: With a provider that returns one vector per text: after a rebuild that
    returns [True], the chunk counts of the ledger add up to the length of
    the chunk store, the index has one row per chunk, and an empty ledger
    goes with no index and no chunk store on disk. *)
Theorem successful_rebuild_is_consistent w :
  (∀ n texts vectors,
      embed_model_encode n texts = Some vectors ->
      length vectors = length texts) ->
  (rebuild_index_from_files w).2 = Some true ->
  let d' := disk (rebuild_index_from_files w).1 in
  consistent d'
  ∧ aligned d' = true
  ∧ (ledger d' = [] -> faiss_index d' = Absent ∧ chunks_pkl d' = Absent).
Proof.
  intros Hlen Hok. cbv zeta.
  split; [|split; [exact (rebuild_aligned w Hlen Hok)|]].
  - apply rebuild_without_raise_is_consistent.
    revert Hok. rewrite rebuild_index_from_files_spec.
    destruct (exists_on_disk (metadata_json (disk w))); [|reflexivity].
    cbv zeta.
    destruct (ledger_chunks (disk w) (ledger (disk w))) as [|c cs];
      [reflexivity|].
    destruct (embed_model_encode _ (c :: cs)); [reflexivity|discriminate].
  - rewrite rebuild_ledger_closed. revert Hok.
    rewrite rebuild_index_from_files_spec.
    destruct (exists_on_disk (metadata_json (disk w))); [|repeat split].
    cbv zeta.
    pose proof (scan_ledger_counts (disk w) (ledger (disk w)) (tick w)) as Hs.
    destruct (ledger_chunks (disk w) (ledger (disk w))) as [|c cs];
      [repeat split|].
    intros _ Hl. rewrite Hl in Hs. discriminate Hs.
Qed.

Lemma ledger_set_metadata l d : ledger (set_metadata (Stored l) d) = l.
Proof. reflexivity. Qed.

Lemma add_without_raise_keeps_consistent file_path w :
  consistent (disk w) ->
  raised (add_new_document file_path w).1 = raised w ->
  consistent (disk (add_new_document file_path w).1).
Proof.
  intros [Hsum Hst]. rewrite add_new_document_spec.
  destruct (chunk_file (disk w) file_path) as [|c cs];
    [intros _; split; assumption|].
  unfold consistent, stored_chunks in *.
  add_cases w c cs; intros Hr; try lia;
    destruct Hst as [(r0 & c0 & Hr0 & Hc0)|(Hi0 & Hc0 & Hl0)];
    try congruence.
  - rewrite ledger_set_metadata, ledger_saved, Hl0. simpl.
    split; [lia|]. left. eauto.
  - rewrite ledger_set_metadata, ledger_saved, map_app, sum_list_with_app.
    try rewrite Hck in Hsum. simpl in Hsum.
    rewrite Hsum, length_app. simpl.
    split; [lia|]. left. eauto.
Qed.

Lemma add_new_document_raised_le file_path w :
  (raised w <= raised (add_new_document file_path w).1)%nat.
Proof.
  rewrite add_new_document_spec.
  destruct (chunk_file (disk w) file_path) as [|c cs]; [reflexivity|].
  add_cases w c cs; lia.
Qed.

Lemma rebuild_index_from_files_raised_le w :
  (raised w <= raised (rebuild_index_from_files w).1)%nat.
Proof.
  rewrite rebuild_index_from_files_spec.
  destruct (exists_on_disk (metadata_json (disk w))); [|reflexivity].
  cbv zeta.
  destruct (ledger_chunks (disk w) (ledger (disk w))) as [|c cs];
    [reflexivity|].
  destruct (embed_model_encode _ (c :: cs)); simpl; lia.
Qed.

Lemma run_op_raised_le o w : (raised w <= raised (run_op o w).1)%nat.
Proof.
  destruct o as [filename data|filename]; simpl.
  - unfold upload_file, read_disk, write_disk, mbind, M_bind. simpl.
    apply (add_new_document_raised_le filename
             (with_disk (set_files (<[filename:=data]> (files (disk w)))) w)).
  - rewrite delete_user_document_spec.
    apply (rebuild_index_from_files_raised_le
             (with_disk (without filename) w)).
Qed.

Lemma run_ops_raised_le ops w : (raised w <= raised (run_ops ops w))%nat.
Proof.
  revert w. induction ops as [|o ops IH]; intros w; [reflexivity|].
  simpl. etransitivity; [apply (run_op_raised_le o)|apply IH].
Qed.

Lemma run_op_without_raise_keeps_consistent o w :
  consistent (disk w) ->
  raised (run_op o w).1 = raised w ->
  consistent (disk (run_op o w).1).
Proof.
  intros Hc. destruct o as [filename data|filename]; simpl.
  - unfold upload_file, read_disk, write_disk, mbind, M_bind. simpl.
    apply (add_without_raise_keeps_consistent filename
             (with_disk (set_files (<[filename:=data]> (files (disk w)))) w)).
    exact Hc.
  - rewrite delete_user_document_spec. intros Hr.
    apply (rebuild_without_raise_is_consistent
             (with_disk (without filename) w)). exact Hr.
Qed.

(** X12: Along a run of ingests and removes of source file names during which
    the embedding provider never raises, a consistent directory stays
    consistent: the chunk counts of the ledger add up to the length of the
    chunk store, and index and chunk store are both on disk or both missing
    with an empty ledger. *)
Theorem runs_without_provider_failure_stay_consistent ops w :
  Forall source_op ops ->
  consistent (disk w) ->
  raised (run_ops ops w) = raised w ->
  consistent (disk (run_ops ops w)).
Proof.
  intros _.
  revert w. induction ops as [|o ops IH]; intros w Hc Hr; [exact Hc|].
  simpl in *.
  pose proof (run_op_raised_le o w) as H1.
  pose proof (run_ops_raised_le ops (run_op o w).1) as H2.
  apply IH; [|lia].
  apply run_op_without_raise_keeps_consistent; [exact Hc|lia].
Qed.

(** *** Ledgers written by the pipeline name files by base name *)

Lemma add_new_document_ledger_flat file_path w :
  ledger_flat (disk w) -> ledger_flat (disk (add_new_document file_path w).1).
Proof.
  intros Hf. rewrite add_new_document_spec.
  destruct (chunk_file (disk w) file_path) as [|c cs]; [exact Hf|].
  unfold ledger_flat in *.
  add_cases w c cs; try exact Hf;
    rewrite ledger_set_metadata, ledger_saved;
    (apply Forall_app; split; [exact Hf|]);
    repeat constructor; simpl; apply basename_idempotent.
Qed.

Lemma run_ops_ledger_flat ops w :
  ledger_flat (disk w) -> ledger_flat (disk (run_ops ops w)).
Proof.
  revert w. induction ops as [|o ops IH]; intros w Hf; [exact Hf|].
  simpl. apply IH. destruct o as [filename data|filename]; simpl.
  - unfold upload_file, read_disk, write_disk, mbind, M_bind. simpl.
    apply (add_new_document_ledger_flat filename
             (with_disk (set_files (<[filename:=data]> (files (disk w)))) w)).
    exact Hf.
  - apply (delete_user_document_ledger_flat filename w Hf).
Qed.

(** X20: in every state reached from the empty directory by ingests and
    removes of source file names, each entry of the ledger names its file by
    its base name. *)
Corollary reachable_ledger_flat ops :
  Forall source_op ops ->
  ledger_flat (disk (run_ops ops empty_world)).
Proof. intros _. apply run_ops_ledger_flat. constructor. Qed.

(** *** Listing the documents *)

Lemma list_user_docs_spec w :
  list_user_docs w
  = (w, match metadata_json (disk w) with
        | Absent => Some NoDocumentsYet
        | Garbled => None
        | Stored l => Some (Documents l)
        end).
Proof.
  unfold list_user_docs, json_load, read_disk, mbind, M_bind, mret, M_ret,
    raise.
  destruct (metadata_json (disk w)) eqn:E; simpl; rewrite ?E; reflexivity.
Qed.

(** X13: After the delete of any source file name the listing succeeds: it is
    the "no documents yet" message exactly when metadata.json was missing
    before, and the rebuilt ledger otherwise, also when metadata.json was
    unreadable, where the listing before the delete fails.  After a
    successful add the listing is the ledger as it was read, followed by the
    entry of the new document with its number of chunks. *)
Theorem listing_after_delete_and_add w :
  (∀ filename,
      source_name filename ->
      let w' := (delete_user_document filename w).1 in
      list_user_docs w'
      = (w', Some (if exists_on_disk (metadata_json (disk w))
                   then Documents (ledger (disk w'))
                   else NoDocumentsYet)))
  ∧ (metadata_json (disk w) = Garbled -> (list_user_docs w).2 = None)
  ∧ (∀ file_path,
       (add_new_document file_path w).2 = Some true ->
       let w' := (add_new_document file_path w).1 in
       ∃ stamp,
         list_user_docs w'
         = (w', Some (Documents
                        (ledger (disk w)
                           ++ [mkEntry (Py.basename file_path)
                                 (length (chunk_file (disk w) file_path))
                                 stamp])))).
Proof.
  split; [|split].
  - intros filename _. cbv zeta.
    assert (Hex : exists_on_disk (metadata_json (without filename (disk w)))
                  = exists_on_disk (metadata_json (disk w))).
    { unfold without. destruct (disk w) as [fs md ix ck]. simpl.
      destruct (bool_decide _); simpl; destruct md; reflexivity. }
    rewrite delete_user_document_spec.
    set (w1 := with_disk (without filename) w).
    assert (Hex1 : exists_on_disk (metadata_json (disk w1))
                   = exists_on_disk (metadata_json (disk w))) by exact Hex.
    clearbody w1. rewrite <- Hex1. rewrite list_user_docs_spec.
    destruct (exists_on_disk (metadata_json (disk w1))) eqn:E.
    + pose proof (rebuild_ledger w1 E) as Hl. unfold ledger.
      rewrite Hl. reflexivity.
    + rewrite rebuild_index_from_files_spec, E. simpl.
      destruct (metadata_json (disk w1)); [reflexivity|discriminate..].
  - intros Hg. rewrite list_user_docs_spec, Hg. reflexivity.
  - intros file_path. cbv zeta. rewrite add_new_document_spec.
    destruct (chunk_file (disk w) file_path) as [|c cs]; [discriminate|].
    add_cases w c cs; try discriminate; intros _; eexists;
      rewrite list_user_docs_spec; reflexivity.
Qed.

(** *** The JSON answer *)

Lemma append_nil_r (s : string) : (s ++ "")%string = s.
Proof.
  induction s as [|c s IH]; [reflexivity|].
  change (String c (s ++ "")%string = String c s). f_equal. exact IH.
Qed.

Lemma append_assoc (a b c : string) :
  ((a ++ b) ++ c)%string = (a ++ (b ++ c))%string.
Proof.
  induction a as [|x a IH]; [reflexivity|].
  change (String x ((a ++ b) ++ c)%string = String x (a ++ (b ++ c))%string).
  f_equal. exact IH.
Qed.

Lemma foldl_append_join (pieces : list string) (acc : string) :
  foldl String.append acc pieces = (acc ++ Py.join "" pieces)%string.
Proof.
  revert acc. induction pieces as [|x pieces IH]; intros acc; simpl.
  - rewrite append_nil_r. reflexivity.
  - rewrite IH, append_assoc. destruct pieces as [|y pieces]; simpl.
    + rewrite append_nil_r. reflexivity.
    + reflexivity.
Qed.

(** X14: [ask_question_json] never raises and never returns a partial answer:
    when the prompt is built and the generation stream ends normally, the
    answer is the contents of the fragments that carry one, joined in
    order; in every other case it is the error answer.  Its effect on the
    directory is the one of the query. *)
Theorem ask_question_json_answer ollama_chat query w :
  let r := ask_question_json ollama_chat query w in
  disk r.1 = disk (get_response_stream query w).1
  ∧ r.2 = Some match (get_response_stream query w).2 with
               | Some prompt =>
                   if (ollama_chat prompt).2
                   then FullAnswer
                          (Py.join "" (omap id (ollama_chat prompt).1))
                   else ErrorAnswer
               | None => ErrorAnswer
               end.
Proof.
  cbv zeta.
  unfold ask_question_json, consume_response_stream, try_except, relay,
    mbind, M_bind, mret, M_ret, raise.
  destruct (get_response_stream query w) as [w' [prompt|]]; simpl;
    [|split; reflexivity].
  destruct (ollama_chat prompt) as [fragments [|]]; simpl;
    [|split; reflexivity].
  split; [reflexivity|]. rewrite foldl_append_join. reflexivity.
Qed.

(** *** Extensions *)

Lemma lower_ascii_not_dot c :
  Ascii.eqb (Py.lower_ascii c) "." = Ascii.eqb c ".".
Proof. destruct c as [[] [] [] [] [] [] [] []]; reflexivity. Qed.

Lemma lower_keeps_dots s : occurs "." (Py.lower s) = occurs "." s.
Proof.
  induction s as [|c s IH]; simpl; [reflexivity|].
  rewrite lower_ascii_not_dot, IH. reflexivity.
Qed.

(** X15: A file name without a dot is its own extension: a file whose whole name
    is, in any letter case, a supported extension ("TXT", "pdf") is read as
    a file of that type; any other name without a dot is skipped. *)
Theorem name_without_dot_is_its_extension d file_path :
  occurs "/" file_path = false ->
  occurs "." file_path = false ->
  extension file_path = Py.lower file_path
  ∧ chunk_file d file_path
    = if bool_decide (Py.lower file_path ∈ SUPPORTED) then
        match files d !! file_path with
        | None => []
        | Some data =>
            match extract_text (Py.lower file_path) data with
            | None => []
            | Some text =>
                if bool_decide (Py.strip text = "") then []
                else split_text text
            end
        end
      else [].
Proof.
  intros Hs Hd.
  assert (He : extension file_path = Py.lower file_path).
  { unfold extension, Py.basename.
    rewrite (split_without_separator "/" _ Hs). simpl.
    rewrite split_without_separator by (rewrite lower_keeps_dots; exact Hd).
    reflexivity. }
  split; [exact He|].
  unfold chunk_file. fold (extension file_path). rewrite He. reflexivity.
Qed.

(** *** Uploading a name again with other content *)

Lemma chunk_file_lookup d d' p :
  files d !! p = files d' !! p -> chunk_file d p = chunk_file d' p.
Proof. intros H. unfold chunk_file. rewrite H. reflexivity. Qed.

Lemma upload_file_spec filename data w :
  upload_file filename data w
  = add_new_document filename
      (with_disk (set_files (<[filename := data]> (files (disk w)))) w).
Proof. reflexivity. Qed.

(** X16: With a provider that answers: when a file is uploaded to a directory
    without index and with an empty ledger, and the same name is uploaded
    again with other content, the chunk store holds the chunks of the first
    content followed by those of the second, although the first content is
    no longer on disk; the ledger has two entries of that name, and a
    rebuild then stores the chunks of the second content twice. *)
Theorem reupload_keeps_stale_chunks_until_rebuild filename data1 data2 w :
  (∀ n texts, texts ≠ [] -> is_Some (embed_model_encode n texts)) ->
  Py.basename filename = filename ->
  faiss_index (disk w) = Absent ->
  ledger (disk w) = [] ->
  let chunks_of data :=
    chunk_file (set_files (<[filename := data]> (files (disk w))) (disk w))
      filename in
  chunks_of data1 ≠ [] ->
  chunks_of data2 ≠ [] ->
  let w2 := run_ops [Ingest filename data1; Ingest filename data2] w in
  chunks_pkl (disk w2) = Stored (chunks_of data1 ++ chunks_of data2)
  ∧ map file (ledger (disk w2)) = [filename; filename]
  ∧ chunks_pkl (disk (rebuild_index_from_files w2).1)
    = Stored (chunks_of data2 ++ chunks_of data2).
Proof.
  intros Hh Hflat Hix Hled chunks_of H1 H2 w2.
  (* first upload *)
  destruct (chunks_of data1) as [|c1 r1] eqn:E1; [congruence|].
  destruct (Hh (tick w) (c1 :: r1) ltac:(discriminate)) as [va Hva].
  destruct (Hh (S (tick w)) (c1 :: r1) ltac:(discriminate)) as [vb Hvb].
  set (w1 := (upload_file filename data1 w).1).
  assert (Hw2 : w2 = (upload_file filename data2 w1).1) by reflexivity.
  assert (Hw1 : chunks_pkl (disk w1) = Stored (c1 :: r1)
                ∧ faiss_index (disk w1) = Stored (va ++ vb)
                ∧ map file (ledger (disk w1)) = [filename]
                ∧ files (disk w1) = <[filename := data1]> (files (disk w))).
  { subst w1. rewrite upload_file_spec, add_new_document_spec.
    change (chunk_file (disk (with_disk _ w)) filename)
      with (chunks_of data1).
    rewrite E1. unfold add_chunks. simpl.
    rewrite Hix, Hva. simpl. rewrite Hvb. simpl.
    rewrite ledger_set_metadata, ledger_saved.
    change (ledger (set_files _ (disk w))) with (ledger (disk w)).
    rewrite Hled. simpl. rewrite Hflat. repeat split. }
  clearbody w1. clear Hva Hvb.
  destruct Hw1 as (Hck1 & Hix1 & Hl1 & Hf1).
  (* second upload *)
  assert (Hc : chunk_file
                 (set_files (<[filename := data2]> (files (disk w1))) (disk w1))
                 filename = chunks_of data2).
  { apply chunk_file_lookup. simpl. rewrite !lookup_insert_eq. reflexivity. }
  destruct (chunks_of data2) as [|c2 r2] eqn:E2; [congruence|].
  destruct (Hh (tick w1) (c2 :: r2) ltac:(discriminate)) as [vc Hvc].
  assert (Hs2 : chunks_pkl (disk w2) = Stored ((c1 :: r1) ++ c2 :: r2)
                ∧ map file (ledger (disk w2)) = [filename; filename]
                ∧ files (disk w2) !! filename = Some data2).
  { rewrite Hw2, upload_file_spec, add_new_document_spec.
    change (chunk_file (disk (with_disk _ w1)) filename)
      with (chunk_file
              (set_files (<[filename := data2]> (files (disk w1))) (disk w1))
              filename).
    rewrite Hc. unfold add_chunks. simpl.
    rewrite Hix1, Hck1, Hvc. simpl.
    rewrite ledger_set_metadata, ledger_saved.
    change (ledger (set_files _ (disk w1))) with (ledger (disk w1)).
    rewrite map_app, Hl1. simpl. rewrite Hflat.
    repeat split. apply lookup_insert_eq. }
  clearbody w2.
  destruct Hs2 as (Hck2 & Hl2 & Hf2).
  split; [exact Hck2|]. split; [exact Hl2|].
  (* rebuild *)
  assert (Hcf : chunk_file (disk w2) filename = c2 :: r2).
  { rewrite <- Hc. apply chunk_file_lookup. simpl.
    rewrite Hf2, lookup_insert_eq. reflexivity. }
  assert (Hlc2 : ledger_chunks (disk w2) (ledger (disk w2))
                 = (c2 :: r2) ++ c2 :: r2).
  { rewrite ledger_chunks_paths, Hl2. unfold paths_chunks. simpl.
    rewrite Hcf, app_nil_r. reflexivity. }
  rewrite rebuild_index_from_files_spec.
  assert (Hex : exists_on_disk (metadata_json (disk w2)) = true).
  { destruct (metadata_json (disk w2)) eqn:Em; try reflexivity.
    unfold ledger in Hl2. rewrite Em in Hl2. discriminate. }
  rewrite Hex. cbv zeta. rewrite Hlc2. simpl.
  match goal with
  | |- context [embed_model_encode ?n (c2 :: ?l)] =>
      destruct (Hh n (c2 :: l) ltac:(discriminate)) as [vd Hvd]; rewrite Hvd
  end.
  reflexivity.
Qed.

End More.

(** ** Paths and accounts *)

Lemma occurs_app c (a b : string) :
  occurs c (a ++ b)%string = occurs c a || occurs c b.
Proof.
  induction a as [|x a IH]; [reflexivity|].
  change (occurs c (String x (a ++ b)%string)
          = occurs c (String x a) || occurs c b).
  simpl. rewrite IH. apply orb_assoc.
Qed.

Lemma string_app_assoc (a b c : string) :
  ((a ++ b) ++ c)%string = (a ++ (b ++ c))%string.
Proof.
  induction a as [|x a IH]; [reflexivity|].
  change (String x ((a ++ b) ++ c)%string = String x (a ++ (b ++ c))%string).
  f_equal. exact IH.
Qed.

(** The digits that the decimal printer puts before the rest. *)
Lemma pretty_N_go_digits (x : N) (s : string) :
  ∃ p, pretty_N_go x s = (p ++ s)%string
       ∧ occurs "/" p = false
       ∧ ((0 < x)%N -> p ≠ "").
Proof.
  revert s. induction (N.lt_wf_0 x) as [x _ IH]. intros s.
  destruct (decide (x = 0%N)) as [->|Hx].
  - exists "". rewrite pretty_N_go_0. repeat split. lia.
  - assert (0 < x)%N as Hpos by lia.
    rewrite pretty_N_go_step by exact Hpos.
    destruct (IH (x `div` 10)%N (N.div_lt x 10 Hpos eq_refl)
                (String (pretty_N_char (x `mod` 10)) s)) as (p & Hp & Ho & _).
    exists (p ++ String (pretty_N_char (x `mod` 10)) "")%string.
    split; [|split].
    + rewrite Hp, string_app_assoc. reflexivity.
    + rewrite occurs_app, Ho. simpl.
      unfold pretty_N_char. repeat case_match; reflexivity.
    + intros _. destruct p; discriminate.
Qed.

Lemma pretty_Z_plain (z : Z) :
  occurs "/" (pretty z) = false ∧ pretty z ≠ "".
Proof.
  assert (Hpos : ∀ q : positive,
             occurs "/" (pretty q) = false ∧ pretty q ≠ "").
  { intros q. unfold pretty, pretty_positive, pretty, pretty_N.
    destruct (decide (N.pos q = 0%N)); [discriminate|].
    destruct (pretty_N_go_digits (N.pos q) "") as (p & Hp & Ho & Hne).
    rewrite Hp. rewrite occurs_app, Ho. split; [reflexivity|].
    specialize (Hne ltac:(lia)). destruct p; [congruence|discriminate]. }
  destruct z as [|q|q]; unfold pretty, pretty_Z.
  - split; [reflexivity|discriminate].
  - apply Hpos.
  - destruct (Hpos q) as [Ho _]. split; [|discriminate].
    change (occurs "/" (String "-" (pretty q)) = false). simpl. exact Ho.
Qed.

Lemma ends_with_app c (a b : string) :
  b ≠ "" -> ends_with c (a ++ b)%string = ends_with c b.
Proof.
  intros Hb. induction a as [|x a IH]; [reflexivity|].
  change (ends_with c (String x (a ++ b)%string) = ends_with c b).
  assert (Hab : (a ++ b)%string ≠ "").
  { destruct a as [|y a']; [exact Hb|].
    change (String y (a' ++ b)%string ≠ ""). discriminate. }
  simpl. destruct (a ++ b)%string; [congruence|exact IH].
Qed.

Lemma ends_with_occurs c (s : string) :
  occurs c s = false -> ends_with c s = false.
Proof.
  induction s as [|x s IH]; [reflexivity|]. simpl.
  intros H. apply orb_false_iff in H as [Hx Hs].
  destruct s; [exact Hx|exact (IH Hs)].
Qed.

Lemma user_dir_closed (user_id : Z) :
  user_dir user_id = ("data/" ++ pretty user_id)%string.
Proof.
  destruct (pretty_Z_plain user_id) as [Ho Hne].
  unfold user_dir, path_join, BASE_DIR.
  destruct (pretty user_id) as [|x s]; [congruence|].
  simpl in Ho. apply orb_false_iff in Ho as [Hx _].
  destruct x as [[] [] [] [] [] [] [] []]; try discriminate Hx; reflexivity.
Qed.

Lemma path_in_user_dir (user_id : Z) (name : string) :
  (∀ rest, name ≠ String "/" rest) ->
  path_join (user_dir user_id) name
  = ("data/" ++ pretty user_id ++ "/" ++ name)%string.
Proof.
  intros Hrel. rewrite user_dir_closed.
  destruct (pretty_Z_plain user_id) as [Ho Hne].
  unfold path_join.
  assert (He : ends_with "/" ("data/" ++ pretty user_id)%string = false).
  { rewrite ends_with_app by exact Hne. apply ends_with_occurs. exact Ho. }
  assert (Hgo : (if ends_with "/" ("data/" ++ pretty user_id)%string
                 then ("data/" ++ pretty user_id) ++ name
                 else ("data/" ++ pretty user_id) ++ "/" ++ name)%string
                = ("data/" ++ pretty user_id ++ "/" ++ name)%string).
  { rewrite He. rewrite string_app_assoc. reflexivity. }
  destruct name as [|x rest]; [exact Hgo|].
  destruct (Ascii.eqb x "/") eqn:Hx.
  - apply Ascii.eqb_eq in Hx. subst x. exfalso. exact (Hrel rest eq_refl).
  - destruct x as [[] [] [] [] [] [] [] []]; try discriminate Hx; exact Hgo.
Qed.

Lemma first_separator c (a b s t : string) :
  occurs c a = false -> occurs c b = false ->
  (a ++ String c s)%string = (b ++ String c t)%string -> a = b ∧ s = t.
Proof.
  revert b. induction a as [|x a IH]; intros b Ha Hb H.
  - destruct b as [|y b]; [injection H as ->; split; reflexivity|].
    change (String c s = String y (b ++ String c t)%string) in H.
    injection H as -> _. simpl in Hb. rewrite Ascii.eqb_refl in Hb.
    discriminate.
  - simpl in Ha. apply orb_false_iff in Ha as [Hx Ha].
    destruct b as [|y b].
    + change (String x (a ++ String c s)%string = String c t) in H.
      injection H as -> _. rewrite Ascii.eqb_refl in Hx. discriminate.
    + change (String x (a ++ String c s)%string
              = String y (b ++ String c t)%string) in H.
      injection H as -> H. simpl in Hb.
      apply orb_false_iff in Hb as [_ Hb].
      destruct (IH b Ha Hb H) as [-> ->]. split; reflexivity.
Qed.

(** X17: as path strings, for names that do not start with a slash: the
    path of a name under one user's directory equals the path of a name
    under another's only for the same user and the same name, and the path
    of a name equals the path of the ledger only for the ledger's name;
    [get_user_dirs] is injective.  (These are equalities of the strings that
    [os.path.join] builds; a name with ".." components still resolves
    elsewhere on the disk.) *)
Theorem user_paths_do_not_collide (u v : Z) (name1 name2 : string) :
  (∀ rest, name1 ≠ String "/" rest) ->
  (∀ rest, name2 ≠ String "/" rest) ->
  (target_path u name1 = target_path v name2 -> u = v ∧ name1 = name2)
  ∧ (get_user_dirs u = get_user_dirs v -> u = v)
  ∧ (target_path u name1 = metadata_path u <-> name1 = METADATA_FILE).
Proof.
  intros H1 H2.
  assert (Hmain : ∀ a b n m,
            (∀ rest, n ≠ String "/" rest) -> (∀ rest, m ≠ String "/" rest) ->
            path_join (user_dir a) n = path_join (user_dir b) m ->
            a = b ∧ n = m).
  { intros a b n m Hn Hm H.
    rewrite !path_in_user_dir in H by assumption.
    injection H as H.
    destruct (pretty_Z_plain a) as [Hoa _].
    destruct (pretty_Z_plain b) as [Hob _].
    destruct (first_separator "/" _ _ _ _ Hoa Hob H) as [Hp ->].
    split; [|reflexivity]. exact (pretty_Z_inj _ _ Hp). }
  split; [|split].
  - apply Hmain; assumption.
  - unfold get_user_dirs. intros H. injection H as _ H _.
    apply (Hmain u v "chunks.pkl" "chunks.pkl"); try discriminate. exact H.
  - unfold target_path, metadata_path. split.
    + intros H. apply (Hmain u u name1 METADATA_FILE) in H;
        [tauto|assumption|discriminate].
    + intros ->. reflexivity.
Qed.

Section AuthProperties.

Variable pwd_hash : nat -> string -> string.
Variable pwd_verify : string -> string -> bool.
Variable assigned_id : list Auth.User -> Z.

Local Abbreviation register := (Auth.register pwd_hash assigned_id).
Local Abbreviation login := (Auth.login pwd_verify).

Lemma first_by_username_None name table :
  Auth.first_by_username name table = None ->
  name ∉ map Auth.username table.
Proof.
  unfold Auth.first_by_username. induction table as [|u table IH]; simpl.
  - intros _ H. inversion H.
  - destruct (bool_decide (Auth.username u = name)) eqn:E; [discriminate|].
    apply bool_decide_eq_false in E. intros Hn Hin.
    apply elem_of_cons in Hin as [Hin|Hin]; [congruence|].
    exact (IH Hn Hin).
Qed.

Lemma first_by_username_snoc name table u :
  Auth.first_by_username name table = None ->
  Auth.username u = name ->
  Auth.first_by_username name (table ++ [u]) = Some u.
Proof.
  unfold Auth.first_by_username. intros Hn Hu.
  induction table as [|x table IH]; simpl in *.
  - rewrite bool_decide_eq_true_2 by exact Hu. reflexivity.
  - destruct (bool_decide (Auth.username x = name)); [discriminate|].
    exact (IH Hn).
Qed.

(** X18: [register] keeps the user names of the table pairwise different, and
    refuses a name that is taken with status 400 without changing the
    table; [login] never changes the table and answers 401 for a name that
    is not in it. *)
Theorem register_keeps_usernames_unique name password db :
  NoDup (map Auth.username (Auth.users db)) ->
  NoDup (map Auth.username (Auth.users (register name password db).1))
  ∧ (name ∈ map Auth.username (Auth.users db) ->
     register name password db = (db, Auth.HTTPError 400))
  ∧ (login name password db).1 = db
  ∧ (name ∉ map Auth.username (Auth.users db) ->
     (login name password db).2 = Auth.HTTPError 401).
Proof.
  intros Hnd. unfold Auth.register, Auth.login.
  destruct (Auth.first_by_username name (Auth.users db)) as [u|] eqn:Hf.
  - assert (Hin : name ∈ map Auth.username (Auth.users db)).
    { unfold Auth.first_by_username in Hf.
      apply find_some in Hf as [Hin Hu].
      apply bool_decide_eq_true in Hu. rewrite <- Hu.
      apply list_elem_of_fmap_2. apply list_elem_of_In. exact Hin. }
    split; [exact Hnd|]. split; [reflexivity|]. split.
    + destruct (pwd_verify _ _); reflexivity.
    + intros Hn. contradiction.
  - pose proof (first_by_username_None _ _ Hf) as Hn.
    split; [|split; [|split]].
    + simpl. rewrite map_app. apply NoDup_app. split; [exact Hnd|].
      split; [|apply NoDup_singleton].
      intros x Hx Hx'. simpl in Hx'. apply list_elem_of_singleton in Hx'.
      subst x. contradiction.
    + intros Hin. contradiction.
    + reflexivity.
    + reflexivity.
Qed.

(** X19: When the verifier accepts a password against its own hash: after a
    successful [register], [login] with the same name and password succeeds
    with the id that [register] returned, and a second [register] of the
    name is refused with status 400. *)
Theorem register_then_login name password db user_id :
  pwd_verify password (pwd_hash (Auth.hashes db) password) = true ->
  (register name password db).2 = Auth.UserRegistered user_id ->
  let db' := (register name password db).1 in
  login name password db' = (db', Auth.LoginSuccessful user_id)
  ∧ ∀ password', register name password' db' = (db', Auth.HTTPError 400).
Proof.
  intros Hv. unfold Auth.register.
  destruct (Auth.first_by_username name (Auth.users db)) eqn:Hf;
    [discriminate|].
  simpl. intros [= <-].
  pose proof (first_by_username_snoc name (Auth.users db)
                (Auth.mkUser (assigned_id (Auth.users db)) name
                   (pwd_hash (Auth.hashes db) password)) Hf eq_refl) as Hs.
  split.
  - unfold Auth.login. simpl. rewrite Hs. simpl. rewrite Hv. reflexivity.
  - intros password'. simpl. rewrite Hs. reflexivity.
Qed.

End AuthProperties.

(** *** The further properties at concrete inputs *)

Lemma query_repairs_alignment_witness :
  aligned (collab := Example.healthy)
    (disk (get_response_stream "q" Example.first_ingest).1) = true.
Proof.
  apply (proj2 (query_repairs_alignment (collab := Example.healthy) "q"
                  Example.first_ingest [11; 11]%nat ["hello world"]
                  healthy_one_vector_per_text eq_refl eq_refl
                  ltac:(discriminate))).
  right. simpl. eauto.
Defined.

Lemma query_on_aligned_writes_nothing_witness :
  disk (get_response_stream (collab := Example.healthy) "q"
          Example.rebuilt).1
  = disk Example.rebuilt.
Proof.
  apply (query_on_aligned_writes_nothing (collab := Example.healthy)).
  vm_compute. reflexivity.
Defined.

Lemma add_onto_existing_index_keeps_alignment_witness :
  aligned (collab := Example.healthy)
    (disk (add_new_document "a.txt" Example.rebuilt).1) = true.
Proof.
  apply (add_onto_existing_index_keeps_alignment (collab := Example.healthy)
           "a.txt" Example.rebuilt healthy_one_vector_per_text).
  - vm_compute. reflexivity.
  - intros rows old Hr Ho. vm_compute in Hr, Ho.
    injection Hr as <-. injection Ho as <-. reflexivity.
  - vm_compute. reflexivity.
Defined.

Lemma add_after_failed_load_keeps_only_new_chunks_witness :
  chunks_pkl (collab := Example.healthy)
    (disk (add_new_document "a.txt" Example.garbled_index_world).1)
  = Stored ["x"; "y"].
Proof.
  refine (proj1 (add_after_failed_load_keeps_only_new_chunks
                   (collab := Example.healthy) "a.txt"
                   Example.garbled_index_world _ _ _)).
  - vm_compute. reflexivity.
  - intros rows old [Hr _]. vm_compute in Hr. discriminate Hr.
  - vm_compute. reflexivity.
Defined.

Lemma unreadable_ledger_counts_as_empty_witness :
  (delete_user_document (collab := Example.healthy) "a.txt"
     Example.garbled_ledger_world).2 = Some true
  ∧ metadata_json
      (disk (delete_user_document "a.txt" Example.garbled_ledger_world).1)
    = Stored []
  ∧ faiss_index
      (disk (delete_user_document "a.txt" Example.garbled_ledger_world).1)
    = Absent
  ∧ chunks_pkl
      (disk (delete_user_document "a.txt" Example.garbled_ledger_world).1)
    = Absent.
Proof.
  refine (proj1 (unreadable_ledger_counts_as_empty
                   (collab := Example.healthy)
                   Example.garbled_ledger_world eq_refl) "a.txt" _).
  is_source_name.
Defined.

Lemma delete_removes_file_and_entries_witness :
  files (collab := Example.healthy)
    (disk (delete_user_document "a.txt" Example.two_added).1)
  = delete "a.txt" (files (disk Example.two_added))
  ∧ ("a.txt" ∉ map file
       (ledger (disk (delete_user_document "a.txt" Example.two_added).1)))
  ∧ ledger_flat (disk (delete_user_document "a.txt" Example.two_added).1).
Proof.
  apply (delete_removes_file_and_entries (collab := Example.healthy)
           "a.txt" Example.two_added); [is_source_name|].
  unfold ledger_flat.
  change (ledger (disk Example.two_added))
    with [mkEntry "a.txt" 2 "2024-01-01 00:00:00";
          mkEntry "b.txt" 1 "2024-01-01 00:00:00"].
  repeat constructor.
Defined.

Lemma successful_rebuild_is_consistent_witness :
  consistent (collab := Example.healthy)
    (disk (rebuild_index_from_files Example.two_added).1)
  ∧ aligned (disk (rebuild_index_from_files Example.two_added).1) = true
  ∧ (ledger (disk (rebuild_index_from_files Example.two_added).1) = [] ->
     faiss_index (disk (rebuild_index_from_files Example.two_added).1)
     = Absent
     ∧ chunks_pkl (disk (rebuild_index_from_files Example.two_added).1)
       = Absent).
Proof.
  apply (successful_rebuild_is_consistent (collab := Example.healthy)
           Example.two_added healthy_one_vector_per_text).
  vm_compute. reflexivity.
Defined.

Lemma runs_without_provider_failure_stay_consistent_witness :
  consistent (collab := Example.healthy)
    (disk (run_ops [Ingest "a.txt" "x|y"; Ingest "b.txt" "z"; Remove "a.txt"]
             empty_world)).
Proof.
  apply (runs_without_provider_failure_stay_consistent
           (collab := Example.healthy)).
  - repeat (apply Forall_cons; split; [simpl; is_source_name|]).
    apply Forall_nil_2.
  - split; [reflexivity|]. right. repeat split.
  - vm_compute. reflexivity.
Defined.

Lemma add_returns_true_iff_witness :
  (add_new_document (collab := Example.healthy) "notes.txt"
     Example.first_ingest).2 = Some true.
Proof.
  apply (add_returns_true_iff (collab := Example.healthy)
           [Ingest "notes.txt" "hello world"] "notes.txt").
  - apply Forall_cons; split; [simpl; is_source_name|apply Forall_nil_2].
  - is_source_name.
  - split; [vm_compute; discriminate|vm_compute; reflexivity].
Defined.

Lemma reachable_ledger_flat_witness :
  ledger_flat (collab := Example.healthy)
    (disk (run_ops [Ingest "a.txt" "x|y"; Ingest "b.txt" "z"; Remove "a.txt"]
             empty_world)).
Proof.
  apply (reachable_ledger_flat (collab := Example.healthy)).
  repeat (apply Forall_cons; split; [simpl; is_source_name|]).
  apply Forall_nil_2.
Defined.

Lemma source_files_follow_operations_witness :
  files (collab := Example.failing)
    (disk (run_ops [Ingest "a.txt" "x|y"; Ingest "b.txt" "z"; Remove "a.txt"]
             empty_world))
  = {[ "b.txt" := "z" ]}.
Proof.
  rewrite (source_files_follow_operations (collab := Example.failing)).
  - vm_compute. reflexivity.
  - repeat (apply Forall_cons; split; [simpl; is_source_name|]).
    apply Forall_nil_2.
Defined.

Lemma listing_after_delete_and_add_witness :
  (list_user_docs (collab := Example.healthy)
     Example.garbled_ledger_world).2 = None
  ∧ list_user_docs
      (delete_user_document "a.txt" Example.garbled_ledger_world).1
    = ((delete_user_document "a.txt" Example.garbled_ledger_world).1,
       Some (Documents [])).
Proof.
  pose proof (listing_after_delete_and_add (collab := Example.healthy)
                Example.garbled_ledger_world) as (Hd & Hg & _).
  split; [exact (Hg eq_refl)|]. apply (Hd "a.txt"). is_source_name.
Defined.

Lemma name_without_dot_is_its_extension_witness :
  extension "TXT" = "txt"
  ∧ chunk_file (collab := Example.healthy)
      (mkUserDir (collab := Example.healthy)
         {[ "TXT" := "hello" ]} Absent Absent Absent) "TXT"
    = ["hello"].
Proof.
  exact (name_without_dot_is_its_extension (collab := Example.healthy)
           (mkUserDir (collab := Example.healthy)
              {[ "TXT" := "hello" ]} Absent Absent Absent)
           "TXT" eq_refl eq_refl).
Defined.

Lemma reupload_keeps_stale_chunks_until_rebuild_witness :
  let w2 := run_ops (collab := Example.healthy)
              [Ingest "a.txt" "x"; Ingest "a.txt" "y|z"] empty_world in
  chunks_pkl (disk w2) = Stored ["x"; "y"; "z"]
  ∧ map file (ledger (disk w2)) = ["a.txt"; "a.txt"]
  ∧ chunks_pkl (disk (rebuild_index_from_files w2).1)
    = Stored ["y"; "z"; "y"; "z"].
Proof.
  exact (reupload_keeps_stale_chunks_until_rebuild
           (collab := Example.healthy) "a.txt" "x" "y|z" empty_world
           healthy_answers eq_refl eq_refl eq_refl
           ltac:(vm_compute; discriminate) ltac:(vm_compute; discriminate)).
Defined.

Lemma user_paths_do_not_collide_witness :
  target_path 7 "metadata.json" = metadata_path 7
  ∧ target_path 7 "metadata.json" = "data/7/metadata.json".
Proof.
  split; [|reflexivity].
  apply (proj2 (proj2 (proj2 (user_paths_do_not_collide 7 12
                                "metadata.json" "notes.txt"
                                ltac:(discriminate) ltac:(discriminate))))).
  reflexivity.
Defined.

Lemma register_keeps_usernames_unique_witness :
  NoDup (map Auth.username
           (Auth.users
              (Auth.register Example.toy_hash Example.next_id "ann" "pw"
                 Example.no_users).1)).
Proof.
  apply (register_keeps_usernames_unique Example.toy_hash Example.toy_verify
           Example.next_id "ann" "pw" Example.no_users).
  apply NoDup_nil_2.
Defined.

Lemma register_then_login_witness :
  Auth.login Example.toy_verify "ann" "pw"
    (Auth.register Example.toy_hash Example.next_id "ann" "pw"
       Example.no_users).1
  = ((Auth.register Example.toy_hash Example.next_id "ann" "pw"
        Example.no_users).1,
     Auth.LoginSuccessful 1).
Proof.
  exact (proj1 (register_then_login Example.toy_hash Example.toy_verify
                  Example.next_id "ann" "pw" Example.no_users 1
                  eq_refl eq_refl)).
Defined.
